(** * Shallow embedding of [datafed_torchflow/pytorch.py] ([TorchLogger])

    The Python values that flow through [TorchLogger.getMetadata] are modelled
    by [pyval]; the method itself by a state-and-error monad whose state is
    the [Model Parameters] dictionary under construction and the log file.
    The checkpoint side ([save_notebook], [save], [reset]) is modelled by a
    second state of the logger instance and a trace of calls made to the
    data service.  Helpers of the repository that live outside
    [pytorch.py] ([serialize_model], [serialize_pytorch_optimizer],
    [extract_instance_attributes], [getNotebookMetadata], the [DataFed]
    client), the blocks' [state_dict()] and [torch.save] are arguments of the definitions, so every theorem holds for
    any behaviour of them. *)

From Stdlib Require Import String Ascii List ZArith NArith Bool Lia.
Import ListNotations.
Open Scope list_scope.
Open Scope string_scope.
#[global] Set Warnings "-register-all".

(* ------------------------------------------------------------------ *)
(** ** Strings: [str.casefold], [in] on strings, [str.startswith] *)

Definition lower_ascii (a : ascii) : ascii :=
  let n := nat_of_ascii a in
  if (65 <=? n)%nat && (n <=? 90)%nat then ascii_of_nat (n + 32) else a.

(** [s.casefold()] on ASCII text. *)
Fixpoint casefold (s : string) : string :=
  match s with
  | EmptyString => EmptyString
  | String a s' => String (lower_ascii a) (casefold s')
  end.

(** [needle in hay] for two strings. *)
Fixpoint contains (needle hay : string) : bool :=
  prefix needle hay ||
  match hay with
  | EmptyString => false
  | String _ h' => contains needle h'
  end.

(** [x in xs] for a list of strings. *)
Definition mem (x : string) (xs : list string) : bool :=
  existsb (String.eqb x) xs.

(** [str(n)] for an integer. *)
Fixpoint digits_aux (fuel : nat) (n : N) (acc : string) : string :=
  match fuel with
  | O => acc
  | S f =>
      let acc' := String (ascii_of_N (48 + N.modulo n 10)) acc in
      if N.ltb n 10 then acc' else digits_aux f (N.div n 10) acc'
  end.

Definition string_of_N (n : N) : string := digits_aux (N.size_nat n + 1) n "".

Definition string_of_Z (z : Z) : string :=
  if (z <? 0)%Z then "-" ++ string_of_N (Z.to_N (- z)) else string_of_N (Z.to_N z).

(* ------------------------------------------------------------------ *)
(** ** Python values *)

(** Exceptions that can escape the modelled code. *)
Inductive exn : Type :=
| TypeError
| ValueError (msg : string)
| KeyError
| AttributeError
| OSError
| RuntimeError.

(** [except (TypeError, ValueError, json.JSONDecodeError)]. *)
Definition caught_by_fallback (e : exn) : bool :=
  match e with
  | TypeError | ValueError _ => true
  | _ => false
  end.

(** A runtime type: [str(type(v))] is ["<class 'module.qualname'>"],
    without the module for builtins. *)
Record pytype : Type := mk_pytype { ty_module : string; ty_qualname : string }.

Definition str_type (t : pytype) : string :=
  "<class '" ++
  (if String.eqb (ty_module t) "builtins" then "" else ty_module t ++ ".") ++
  ty_qualname t ++ "'>".

Definition builtin (n : string) : pytype := mk_pytype "builtins" n.

(** The types listed in the exclusion test of [getMetadata]. *)
Definition T_type := builtin "type".
Definition T_module := builtin "module".
Definition T_function := builtin "function".
Definition T_method := builtin "method".
Definition T_NoneType := builtin "NoneType".
Definition T_API := mk_pytype "datafed.CommandLib" "API".
Definition T_DataLoader := mk_pytype "torch.utils.data.dataloader" "DataLoader".

Definition pytype_eqb (a b : pytype) : bool :=
  String.eqb (ty_module a) (ty_module b) && String.eqb (ty_qualname a) (ty_qualname b).

Inductive array_kind : Type := NDArray | Tensor.

(** Values.  [VArray k shape data text]: a numpy array or torch tensor
    with its [.shape], its [.tolist()] and the text it prints as.
    [VObj ty callable attrs str_result]: any other object, with its type,
    whether [callable(v)] holds, its [__dict__] (when it has one) and the
    outcome of [str(v)] (a string, or the exception [__str__] raises);
    [repr] of such an object agrees with [str].  Strings are modelled
    without quotes or backslashes, so [repr(s)] is [s] in single quotes. *)
Inductive pyval : Type :=
| VNone
| VBool (b : bool)
| VNum (z : Z)
| VStr (s : string)
| VList (l : list pyval)
| VDict (d : list (string * pyval))
| VArray (k : array_kind) (shape : list Z) (data : pyval) (text : string)
| VPath (p : string)
| VDevice (d : string)
| VObj (ty : pytype) (is_callable : bool)
       (attrs : option (list (string * pyval))) (str_result : exn + string).

(** [type(v)] *)
Definition type_of (v : pyval) : pytype :=
  match v with
  | VNone => T_NoneType
  | VBool _ => builtin "bool"
  | VNum _ => builtin "int"
  | VStr _ => builtin "str"
  | VList _ => builtin "list"
  | VDict _ => builtin "dict"
  | VArray NDArray _ _ _ => mk_pytype "numpy" "ndarray"
  | VArray Tensor _ _ _ => mk_pytype "torch" "Tensor"
  | VPath _ => mk_pytype "pathlib" "PosixPath"
  | VDevice _ => mk_pytype "torch" "device"
  | VObj ty _ _ _ => ty
  end.

(** [callable(v)] *)
Definition py_callable (v : pyval) : bool :=
  match v with VObj _ c _ _ => c | _ => false end.

(** [hasattr(v, "__dict__")]: class instances with a [__dict__] and torch
    tensors. *)
Definition has_dict (v : pyval) : bool :=
  match v with
  | VObj _ _ (Some _) _ => true
  | VArray Tensor _ _ _ => true
  | _ => false
  end.

Definition is_str (v : pyval) : bool :=
  match v with VStr _ => true | _ => false end.

(** [repr(v)]; an exception raised by an element propagates. *)
Fixpoint py_repr (v : pyval) : exn + string :=
  let reprs := fix reprs (l : list pyval) : exn + list string :=
    match l with
    | [] => inr []
    | x :: t =>
        match py_repr x, reprs t with
        | inr s, inr ss => inr (s :: ss)
        | inl e, _ => inl e
        | _, inl e => inl e
        end
    end in
  let items := fix items (d : list (string * pyval)) : exn + list string :=
    match d with
    | [] => inr []
    | (k, x) :: t =>
        match py_repr x, items t with
        | inr s, inr ss => inr (("'" ++ k ++ "': " ++ s) :: ss)
        | inl e, _ => inl e
        | _, inl e => inl e
        end
    end in
  match v with
  | VNone => inr "None"
  | VBool true => inr "True"
  | VBool false => inr "False"
  | VNum z => inr (string_of_Z z)
  | VStr s => inr ("'" ++ s ++ "'")
  | VList l =>
      match reprs l with
      | inr ss => inr ("[" ++ String.concat ", " ss ++ "]")
      | inl e => inl e
      end
  | VDict d =>
      match items d with
      | inr ss => inr ("{" ++ String.concat ", " ss ++ "}")
      | inl e => inl e
      end
  | VArray _ _ _ t => inr t
  | VPath p => inr ("PosixPath('" ++ p ++ "')")
  | VDevice d => inr ("device(type='" ++ d ++ "')")
  | VObj _ _ _ r => r
  end.

(** [str(v)] *)
Definition py_str (v : pyval) : exn + string :=
  match v with
  | VStr s => inr s
  | VPath p => inr p
  | VDevice d => inr d
  | _ => py_repr v
  end.

(** [json.dumps(v)] succeeds: [None], booleans, numbers, strings, and
    lists and string-keyed dicts of such values.  Arrays, tensors, paths,
    devices and other objects make it raise [TypeError]. *)
Fixpoint json_ok (v : pyval) : bool :=
  match v with
  | VNone | VBool _ | VNum _ | VStr _ => true
  | VList l => forallb json_ok l
  | VDict d => forallb (fun kv => json_ok (snd kv)) d
  | _ => false
  end.

(* ------------------------------------------------------------------ *)
(** ** A state-and-error monad.  Effects performed before an exception
    stay in the state, as they do in Python. *)

Inductive result (A : Type) : Type :=
| Ok (a : A)
| Err (e : exn).
Arguments Ok {A} a.
Arguments Err {A} e.

Definition M (S A : Type) : Type := S -> result A * S.

Definition ret {S A} (a : A) : M S A := fun s => (Ok a, s).
Definition raise {S A} (e : exn) : M S A := fun s => (Err e, s).
Definition bind {S A B} (m : M S A) (k : A -> M S B) : M S B :=
  fun s => match m s with
           | (Ok a, s') => k a s'
           | (Err e, s') => (Err e, s')
           end.
Definition get {S} : M S S := fun s => (Ok s, s).
Definition put {S} (s : S) : M S unit := fun _ => (Ok tt, s).

Notation "x <- m ;; k" := (bind m (fun x => k))
  (at level 61, m at next level, right associativity).
Notation "m ;;; k" := (bind m (fun _ => k))
  (at level 61, right associativity).

(** Run a computation that may raise inside the monad. *)
Definition lift {S A} (r : exn + A) : M S A :=
  match r with inl e => raise e | inr a => ret a end.

(** [for x in xs: body(x)] *)
Fixpoint for_each {S A} (body : A -> M S unit) (xs : list A) : M S unit :=
  match xs with
  | [] => ret tt
  | x :: t => body x ;;; for_each body t
  end.

(* ------------------------------------------------------------------ *)
(** ** Python dicts, as insertion-ordered association lists *)

Definition dict := list (string * pyval).

(** [d[k]] *)
Fixpoint dget (k : string) (d : dict) : option pyval :=
  match d with
  | [] => None
  | (k', v) :: t => if String.eqb k k' then Some v else dget k t
  end.

(** [d[k] = v]: replaces in place, or appends a new key at the end. *)
Fixpoint dset (k : string) (v : pyval) (d : dict) : dict :=
  match d with
  | [] => [(k, v)]
  | (k', v') :: t => if String.eqb k k' then (k, v) :: t else (k', v') :: dset k v t
  end.

(** [d.update(e)] *)
Definition dupdate (d e : dict) : dict :=
  fold_left (fun acc kv => dset (fst kv) (snd kv) acc) e d.

(* ------------------------------------------------------------------ *)
(** ** [TorchLogger.getMetadata] *)

(** The attributes of the [TorchLogger] instance that [getMetadata] reads. *)
Record logger_cfg : Type := mk_cfg {
  model_architecture_names : list string;   (* list(self.model_dict.keys()) *)
  logging : bool;                          (* self.logging *)
  input_data_shape : option (list Z);      (* self.input_data_shape *)
  log_file_opens : bool                    (* open(self.log_file_path, "a") succeeds *)
}.

(** The helpers [getMetadata] calls and the values they return: the
    serializers of [datafed_torchflow.utils] ([serialize_model] returns a
    dict, its result is [.update]d), [getNotebookMetadata(self.__file__)],
    [getUserClock()], [get_system_info()], the timestamp of the log lines
    and [traceback.format_exc()]. *)
Record helpers : Type := mk_helpers {
  serialize_model : pyval -> dict;
  serialize_pytorch_optimizer : pyval -> pyval;
  extract_instance_attributes : pyval -> dict;
  notebook_metadata : dict;
  current_user : string;
  current_time : string;
  computer_info : pyval;
  log_timestamp : string;
  format_exc : string
}.

(** State of [getMetadata]: [DataFed_record_metadata["Model Parameters"]]
    and the chunks written to the log file. *)
Record gstate : Type := mk_gstate { mp : dict; logf : list string }.

Definition set_mp (k : string) (v : pyval) : M gstate unit :=
  s <- get ;; put (mk_gstate (dset k v (mp s)) (logf s)).

(** [DataFed_record_metadata["Model Parameters"][sub][k] = v] *)
Definition set_sub (sub k : string) (v : pyval) : M gstate unit :=
  s <- get ;;
  match dget sub (mp s) with
  | Some (VDict d) => put (mk_gstate (dset sub (VDict (dset k v d)) (mp s)) (logf s))
  | Some _ => raise TypeError
  | None => raise KeyError
  end.

Definition MH := "Model Hyperparameters".
Definition MA := "Model Architecture".

Definition write_log (chunk : string) : M gstate unit :=
  s <- get ;; put (mk_gstate (mp s) (logf s ++ [chunk])).

Definition excluded_names : list string :=
  ["checkpoint"; "self"; "local_vars"; "model_dict"; "model_hyperparameters";
   "i"; "image"; "key"; "value"].

Definition optimizer_aliases : list string :=
  ["optimizer"; "optim"; "optim_"; "optimizer_"].

Definition excluded_types : list pytype :=
  [T_type; T_module; T_function; T_API; T_DataLoader; T_NoneType; T_method].

(** The condition of the [if] at the top of the loop body. *)
Definition keep_var (arch : list string) (key : string) (value : pyval) : bool :=
  negb (prefix "_" key)
  && negb (mem (casefold key) excluded_names)
  && negb (contains "datafed" (casefold key))
  && negb (contains "globus" (casefold key))
  && negb (contains (casefold "data") (casefold (str_type (type_of value))))
  && negb (contains (casefold "dataloader") (casefold (str_type (type_of value))))
  && (negb (py_callable value && negb (mem key arch))
      || negb (py_callable value && negb (mem key optimizer_aliases)))
  && negb (existsb (pytype_eqb (type_of value)) excluded_types).

(** Python's [<] on tuples of ints: lexicographic. *)
Fixpoint tuple_lt (a b : list Z) : bool :=
  match a, b with
  | [], [] => false
  | [], _ :: _ => true
  | _ :: _, [] => false
  | x :: a', y :: b' => if (x <? y)%Z then true else if (y <? x)%Z then false else tuple_lt a' b'
  end.

(** [sum(len(str(s)) for s in value)] *)
Fixpoint sum_str_len (l : list pyval) : exn + nat :=
  match l with
  | [] => inr 0
  | x :: t =>
      match py_str x with
      | inl e => inl e
      | inr s => match sum_str_len t with
                 | inl e => inl e
                 | inr n => inr (String.length s + n)
                 end
      end
  end.

(** The [with open(self.log_file_path, "a") as f:] block of the last
    fallback.  The second [f.write] formats [{value}], which calls
    [str(value)] again. *)
Definition log_failure (c : logger_cfg) (h : helpers) (key : string) (value : pyval) : M gstate unit :=
  if negb (log_file_opens c) then raise OSError else
  write_log ("\n " ++ log_timestamp h ++ " - Could not convert " ++ key ++
             " to JSON. " ++ key ++ " has type " ++ str_type (builtin "str")) ;;;
  sv <- lift (py_str value) ;;
  write_log ("the corresponding value has type " ++ str_type (type_of value) ++
             " and value \n " ++ sv) ;;;
  write_log ("Python error message " ++ format_exc h) ;;;
  write_log "skipping this variable.".

(** One iteration of [for key, value in local_vars:]. *)
Definition process_var (c : logger_cfg) (h : helpers) (hyper_keys : list string)
    (kv : string * pyval) : M gstate unit :=
  let (key, value) := kv in
  let arch := model_architecture_names c in
  if negb (keep_var arch key value) then ret tt else
  if mem key arch then
    if negb (is_str value) && mem (casefold key) optimizer_aliases then
      set_sub MA key (serialize_pytorch_optimizer h value)
    else
      set_sub MA key (VDict (dupdate (serialize_model h value)
                                     (extract_instance_attributes h value)))
  else if negb (is_str value) && mem (casefold key) optimizer_aliases then
    set_sub MA key (serialize_pytorch_optimizer h value)
  else
  match value with
  | VList l =>
      n <- lift (sum_str_len l) ;;
      if (n <? 1000)%nat then
        match l with
        | [x] => set_mp key x
        | _ => set_mp key value
        end
      else
        (* [Warning(warning_message)] only builds an exception object *)
        ret tt
  | _ =>
  if mem key hyper_keys then
    match value, input_data_shape c with
    | VArray _ shape data _, Some ids =>
        if tuple_lt shape ids then set_sub MH key data else ret tt
    | _, _ => set_sub MH key value
    end
  else
  match value with
  | VArray _ shape data _ =>
      match input_data_shape c with
      | Some ids =>
          if tuple_lt shape ids then
            if json_ok data then set_mp key data
            else (s <- lift (py_str data) ;; set_mp key (VStr s))
          else ret tt
      | None => ret tt
      end
  | VPath p => set_mp key (VStr p)
  | VDevice d => set_mp key (VStr d)
  | _ =>
  if has_dict value then
    if (0 <? length (extract_instance_attributes h value))%nat then
      set_mp key (VDict (extract_instance_attributes h value))
    else ret tt
  else
  match value with
  | VDict ((_, v0) :: _) =>
      if negb (contains "_" (str_type (type_of v0))) then
        if json_ok value then set_mp key value
        else (s <- lift (py_str value) ;; set_mp key (VStr s))
      else ret tt
  | _ =>
      if json_ok value then set_mp key value
      else match py_str value with
           | inr s => set_mp key (VStr s)
           | inl e =>
               if caught_by_fallback e then
                 if logging c then log_failure c h key value else ret tt
               else raise e
           end
  end
  end
  end.

Definition initial_mp : dict := [(MH, VDict []); (MA, VDict [])].

(** The body of [getMetadata] after its two argument checks: the loop over
    the snapshot, then the notebook, user/timestamp and system fields. *)
Definition assemble_metadata (c : logger_cfg) (h : helpers)
    (lv : list (string * pyval)) (hp : dict) : M gstate pyval :=
  for_each (process_var c h (map fst hp)) lv ;;;
  s <- get ;;
  let mp1 := dupdate (mp s) (notebook_metadata h) in
  let mp2 := dupdate mp1 [("user", VStr (current_user h));
                          ("timestamp", VStr (current_time h))] in
  put (mk_gstate mp2 (logf s)) ;;;
  ret (VDict [("Model Parameters", VDict mp2); ("System Information", computer_info h)]).

(** [TorchLogger.getMetadata(local_vars, model_hyperparameters)]: the
    returned value is the whole record [DataFed_record_metadata]. *)
Definition getMetadata (c : logger_cfg) (h : helpers)
    (local_vars : option (list (string * pyval)))
    (model_hyperparameters : option dict) : M gstate pyval :=
  s0 <- get ;;
  put (mk_gstate initial_mp (logf s0)) ;;;
  match local_vars with
  | None => raise (ValueError "local_vars cannot be None")
  | Some lv =>
  match model_hyperparameters with
  | None => raise (ValueError "model_hyperparameters cannot be None")
  | Some hp => assemble_metadata c h lv hp
  end
  end.

(** [record[k1][k2]...] on a nested dict. *)
Fixpoint rec_lookup (path : list string) (v : pyval) : option pyval :=
  match path with
  | [] => Some v
  | k :: p =>
      match v with
      | VDict d => match dget k d with Some v' => rec_lookup p v' | None => None end
      | _ => None
      end
  end.

(* ------------------------------------------------------------------ *)
(** ** [getModelArchitectureStateDict] and the local checkpoint of [save] *)

(** The loop of [getModelArchitectureStateDict]:
    [model_architecture[block] = self.model_dict[block].state_dict()] for
    each [block] in turn.  [state_dict v] is the outcome of
    [v.state_dict()] (an exception, e.g. [AttributeError] on a value that
    has no such method, propagates). *)
Fixpoint state_dicts (state_dict : pyval -> exn + pyval) (model_dict : dict)
    (blocks : list string) (model_architecture : dict) : exn + dict :=
  match blocks with
  | [] => inr model_architecture
  | block :: t =>
      match dget block model_dict with
      | None => inl KeyError
      | Some v =>
          match state_dict v with
          | inl e => inl e
          | inr sd => state_dicts state_dict model_dict t (dset block sd model_architecture)
          end
      end
  end.

(** [TorchLogger.getModelArchitectureStateDict()] *)
Definition getModelArchitectureStateDict (state_dict : pyval -> exn + pyval)
    (model_dict : dict) : exn + dict :=
  state_dicts state_dict model_dict (map fst model_dict) [].

(** The checkpoint [save] writes with [torch.save]:
    [checkpoint = self.getModelArchitectureStateDict()] followed by
    [checkpoint.update(model_hyperparameters or {})]. *)
Definition torch_checkpoint (state_dict : pyval -> exn + pyval) (model_dict : dict)
    (model_hyperparameters : option dict) : exn + dict :=
  match getModelArchitectureStateDict state_dict model_dict with
  | inl e => inl e
  | inr checkpoint =>
      inr (dupdate checkpoint (match model_hyperparameters with Some d => d | None => [] end))
  end.

(* ------------------------------------------------------------------ *)
(** ** The checkpoint side: [save_notebook], [save], [reset] *)

(** [self.dataset_id], as returned by [upload_dataset_to_DataFed()]: a
    single id, a list of ids, or anything else ([None]). *)
Inductive dsid : Type :=
| DsNone
| DsStr (s : string)
| DsList (l : list string).

(** Calls made to the data service (and to [torch.save]), in order. *)
Inductive call : Type :=
| CTorchSave (path : string)
| CLookupNotebook (path : string)
| CDataView (rid : string)
| CUploadDataset
| CAddDerivedFrom (ids : list string)
| CAddDerivedFromDataset (ds : dsid)
| CCreate (title : string) (metadata : pyval) (deps : option (list string))
| CUploadFile (rid : string) (path : string).

(** Answers of the data service and of the file system. *)
Record service : Type := mk_service {
  lookup_notebook : string -> option string;
      (* get_notebook_DataFed_ID_from_path_and_title; [None]: it raised *)
  stored_checksum : string -> option string;
      (* json.loads(dataView(id)...metadata)["script"]["checksum"]; [None]: KeyError *)
  notebook_checksum : string -> option string;
      (* getNotebookMetadata(path)["script"]["checksum"]; [None]: it returned None *)
  upload_dataset_result : dsid;
  new_record_id : nat -> string;  (* id of the record created as the n-th call *)
  path_exists : string -> bool
}.

(** The attributes of a [TorchLogger] instance that these methods mutate. *)
Record lstate : Type := mk_lstate {
  current_checkpoint_id : option string;
  notebook_record_id : option string;
  dataset_id : dsid;
  calls : list call;
  log_chunks : list string
}.

(** The model side of [save]: [self.model_dict], the outcome of each
    block's [state_dict()] and of [torch.save(checkpoint, path)]
    ([Some e]: it raised [e]). *)
Record torch_io : Type := mk_torch_io {
  model_dict : dict;
  state_dict : pyval -> exn + pyval;
  torch_save : string -> dict -> option exn
}.

Definition set_current (x : option string) : M lstate unit :=
  s <- get ;; put (mk_lstate x (notebook_record_id s) (dataset_id s) (calls s) (log_chunks s)).
Definition set_notebook (x : option string) : M lstate unit :=
  s <- get ;; put (mk_lstate (current_checkpoint_id s) x (dataset_id s) (calls s) (log_chunks s)).
Definition set_dataset (x : dsid) : M lstate unit :=
  s <- get ;; put (mk_lstate (current_checkpoint_id s) (notebook_record_id s) x (calls s) (log_chunks s)).
Definition emit (k : call) : M lstate unit :=
  s <- get ;; put (mk_lstate (current_checkpoint_id s) (notebook_record_id s) (dataset_id s)
                             (calls s ++ [k]) (log_chunks s)).
(** A call that creates a record returns a fresh id. *)
Definition emit_create (title : string) (md : pyval) (deps : option (list string)) : M lstate nat :=
  s <- get ;; emit (CCreate title md deps) ;;; ret (length (calls s)).
Definition log_line (c : logger_cfg) (chunk : string) : M lstate unit :=
  if negb (logging c) then ret tt
  else if negb (log_file_opens c) then raise OSError
  else s <- get ;; put (mk_lstate (current_checkpoint_id s) (notebook_record_id s)
                                  (dataset_id s) (calls s) (log_chunks s ++ [chunk])).

(** [self.reset()] *)
Definition reset : M lstate unit := set_current None.

(** The last component of [path.split("/")]. *)
Fixpoint basename_aux (s acc : string) : string :=
  match s with
  | EmptyString => acc
  | String a s' => if Ascii.eqb a "/"%char then basename_aux s' "" else basename_aux s' (acc ++ String a "")
  end.
Definition basename (s : string) : string := basename_aux s "".

Definition option_string_eqb (a b : option string) : bool :=
  match a, b with
  | Some x, Some y => String.eqb x y
  | None, None => true
  | _, _ => false
  end.

(** The ids [addDerivedFrom(self.dataset_id)] links to. *)
Definition dataset_ids (ds : dsid) : list string :=
  match ds with DsStr d => [d] | DsList l => l | DsNone => [] end.

(** [TorchLogger.save_notebook()], with [script_path] for [self.__file__]. *)
Definition save_notebook (c : logger_cfg) (h : helpers) (svc : service)
    (script_path : option string) : M lstate unit :=
  match script_path with
  | None => ret tt
  | Some f =>
      (if prefix "d/" f then set_notebook (Some f)
       else
         emit (CLookupNotebook f) ;;;
         match lookup_notebook svc f with
         | Some rid => set_notebook (Some rid)
         | None => log_line c ("\n " ++ log_timestamp h ++ " - Uploading notebook " ++ f ++ " to DataFed...")
         end) ;;;
      match notebook_checksum svc f with
      | None => raise (ValueError ("Failed to get metadata for notebook " ++ f))
      | Some new_checksum =>
          s <- get ;;
          old_checksum <- match notebook_record_id s with
                          | None => ret None
                          | Some rid =>
                              emit (CDataView rid) ;;;
                              match stored_checksum svc rid with
                              | Some ck => ret (Some ck)
                              | None => raise KeyError
                              end
                          end ;;
          if option_string_eqb (Some new_checksum) old_checksum then ret tt
          else
            log_line c ("\n " ++ log_timestamp h ++ " - Uploading notebook " ++ f ++ " to DataFed...") ;;;
            emit CUploadDataset ;;;
            set_dataset (upload_dataset_result svc) ;;;
            emit (CAddDerivedFromDataset (upload_dataset_result svc)) ;;;
            n <- emit_create (basename f)
                   (VDict (dupdate (notebook_metadata h)
                                   [("user", VStr (current_user h)); ("timestamp", VStr (current_time h))]))
                   (Some (dataset_ids (upload_dataset_result svc))) ;;
            emit (CUploadFile (new_record_id svc n) f) ;;;
            set_notebook (Some (new_record_id svc n))
      end
  end.

(** [[id for id in xs if id is not None]] *)
Fixpoint present (xs : list (option string)) : list string :=
  match xs with
  | [] => []
  | Some x :: t => x :: present t
  | None :: t => present t
  end.

(** The list [ids_to_add] built by [save]. *)
Definition ids_to_add (nb cur : option string) (ds : dsid) : list string :=
  match ds with
  | DsStr d => present [nb; cur; Some d]
  | DsList l => present [nb; cur] ++ l
  | DsNone => present [nb; cur]
  end.

(** Run [getMetadata] from [save]: it writes to the same log file. *)
Definition in_getMetadata {A} (m : M gstate A) : M lstate A :=
  fun s => let (r, g) := m (mk_gstate [] (log_chunks s)) in
           (r, mk_lstate (current_checkpoint_id s) (notebook_record_id s) (dataset_id s)
                         (calls s) (logf g)).

Definition ends_with_zip (p : string) : bool :=
  let n := String.length p in
  (4 <=? n)%nat && String.eqb (substring (n - 4) 4 p) ".zip".

(** [str(local_file_path)] *)
Definition path_str (p : option string) : string :=
  match p with Some s => s | None => "None" end.

(** The local checkpoint of [save] (lines before [if datafed:]): for a
    path that neither ends in [.zip] nor exists,
    [checkpoint = self.getModelArchitectureStateDict()],
    [checkpoint.update(model_hyperparameters or {})] and
    [torch.save(checkpoint, local_file_path)]; each may raise. *)
Definition save_local (svc : service) (tio : torch_io) (local_file_path : option string)
    (model_hyperparameters : option dict) : M lstate unit :=
  match local_file_path with
  | Some p =>
      if negb (ends_with_zip p) && negb (path_exists svc p) then
        match torch_checkpoint (state_dict tio) (model_dict tio) model_hyperparameters with
        | inl e => raise e
        | inr checkpoint =>
            emit (CTorchSave p) ;;;
            match torch_save tio p checkpoint with
            | Some e => raise e
            | None => ret tt
            end
        end
      else ret tt
  | None => ret tt
  end.

(** [TorchLogger.save(record_file_name, datafed, local_file_path,
    local_vars, model_hyperparameters)]. *)
Definition save (c : logger_cfg) (h : helpers) (svc : service) (tio : torch_io)
    (record_file_name : string) (datafed : bool) (local_file_path : option string)
    (local_vars : option (list (string * pyval))) (model_hyperparameters : option dict)
    : M lstate unit :=
  save_local svc tio local_file_path model_hyperparameters ;;;
  if negb datafed then ret tt else
  s <- get ;;
  let nb := match notebook_record_id s with
            | Some x => if (0 <? String.length x)%nat then Some x else None
            | None => None
            end in
  set_notebook nb ;;;
  let cur := current_checkpoint_id s in
  emit CUploadDataset ;;;
  set_dataset (upload_dataset_result svc) ;;;
  let ids := ids_to_add nb cur (upload_dataset_result svc) in
  deps <- (match ids with
           | [] => ret None
           | _ :: _ => emit (CAddDerivedFrom ids) ;;; ret (Some ids)
           end) ;;
  metadata <- in_getMetadata (getMetadata c h local_vars model_hyperparameters) ;;
  n <- emit_create record_file_name metadata deps ;;
  emit (CUploadFile (new_record_id svc n) (path_str local_file_path)) ;;;
  set_current (Some (new_record_id svc n)).

(* ------------------------------------------------------------------ *)
(** ** Notions used to state the properties *)

(** The spec's "shape element-wise smaller than [input_shape]": same
    number of dimensions (at least one), each one smaller. *)
Fixpoint shape_elementwise_lt (a b : list Z) : bool :=
  match a, b with
  | [x], [y] => (x <? y)%Z
  | x :: (_ :: _) as a', y :: (_ :: _) as b' => (x <? y)%Z && shape_elementwise_lt a' b'
  | _, _ => false
  end.

(** Same number of dimensions, each one at least the configured one. *)
Fixpoint shape_elementwise_ge (a b : list Z) : bool :=
  match a, b with
  | [], [] => true
  | x :: a', y :: b' => (y <=? x)%Z && shape_elementwise_ge a' b'
  | _, _ => false
  end.

(** Number of records created by a sequence of calls. *)
Fixpoint count_creates (l : list call) : nat :=
  match l with
  | [] => 0
  | CCreate _ _ _ :: t => S (count_creates t)
  | _ :: t => count_creates t
  end.

(** The record [save_notebook] compares against: the id given as
    [script_path] itself, else the one found by the lookup, else the id
    already held by the instance. *)
Definition prior_notebook_id (svc : service) (f : string) (ls : lstate) : option string :=
  if prefix "d/" f then Some f
  else match lookup_notebook svc f with
       | Some rid => Some rid
       | None => notebook_record_id ls
       end.

(** The checksum stored in that record, if there is one. *)
Definition prior_checksum (svc : service) (f : string) (ls : lstate) : option string :=
  match prior_notebook_id svc f ls with
  | Some rid => stored_checksum svc rid
  | None => None
  end.

(** [self.notebook_record_id] as normalised at the start of [save]. *)
Definition notebook_id_for_save (ls : lstate) : option string :=
  match notebook_record_id ls with
  | Some x => if (0 <? String.length x)%nat then Some x else None
  | None => None
  end.

(** [deps] passed to [data_record_create] for a list of ids. *)
Definition deps_of (ids : list string) : option (list string) :=
  match ids with [] => None | _ :: _ => Some ids end.

(** The [addDerivedFrom] call made for a list of ids, if any. *)
Definition dep_calls (ids : list string) : list call :=
  match ids with [] => [] | _ :: _ => [CAddDerivedFrom ids] end.

(** What the local checkpoint of [save] raises, if anything. *)
Definition local_error (svc : service) (tio : torch_io) (path : option string)
    (hp : option dict) : option exn :=
  match path with
  | Some p =>
      if negb (ends_with_zip p) && negb (path_exists svc p) then
        match torch_checkpoint (state_dict tio) (model_dict tio) hp with
        | inl e => Some e
        | inr checkpoint => torch_save tio p checkpoint
        end
      else None
  | None => None
  end.

(** The [torch.save] call the local checkpoint of [save] makes, if any. *)
Definition local_calls (svc : service) (tio : torch_io) (path : option string)
    (hp : option dict) : list call :=
  match path with
  | Some p =>
      if negb (ends_with_zip p) && negb (path_exists svc p) then
        match torch_checkpoint (state_dict tio) (model_dict tio) hp with
        | inl _ => []
        | inr _ => [CTorchSave p]
        end
      else []
  | None => []
  end.

(* ------------------------------------------------------------------ *)
(** ** Concrete instances used by the examples below *)

Definition cfg_log : logger_cfg := mk_cfg ["encoder"] true None true.
Definition cfg_shape : logger_cfg := mk_cfg ["encoder"] false (Some [2; 10]%Z) true.
Definition cfg_block_w : logger_cfg := mk_cfg ["w"] false (Some [2; 10]%Z) true.

Definition helpers0 : helpers :=
  mk_helpers (fun _ => [("layers", VNum 2)]) (fun _ => VDict [("lr", VNum 1)])
             (fun _ => [("hidden", VNum 8)]) [("script", VDict [("checksum", VStr "abc")])]
             "user0" "2024-01-01 00:00:00" (VDict [("cpu", VStr "x86")])
             "2024-01-01 00:00:00" "Traceback".

Definition gstate0 : gstate := mk_gstate [] [].

(** An object whose [__str__] raises [TypeError]. *)
Definition unprintable : pyval :=
  VObj (mk_pytype "__main__" "Unprintable") false None (inl TypeError).

(** [torch.tensor(1)]: a zero-dimensional tensor. *)
Definition tensor_one : pyval := VArray Tensor [] (VNum 1) "tensor(1)".

(** A [DataLoader] instance. *)
Definition loader : pyval := VObj T_DataLoader false (Some []) (inr "<DataLoader>").

Definition service0 : service :=
  mk_service (fun p => if String.eqb p "train.ipynb" then Some "d/100" else None)
             (fun rid => if String.eqb rid "d/100" then Some "abc" else None)
             (fun _ => Some "abc") (DsStr "d/7")
             (fun n => "d/" ++ string_of_N (N.of_nat (200 + n))) (fun _ => false).

Definition lstate0 : lstate := mk_lstate (Some "d/150") (Some "d/100") DsNone [] [].

(* ------------------------------------------------------------------ *)
(** ** [InferenceEvaluation] *)

(** A row of [self.df] as produced by [iterrows()]: its index label and
    [row.id]. *)
Record row : Type := mk_row { row_index : Z; row_id : string }.

(** The value of [file_path] in [run_inference]: the list returned by
    [find_files_recursive], [None], or the single path string that
    [get_first_entry_if_list] takes out of a non-empty list. *)
Inductive fpath : Type :=
| FList (l : list string)
| FStr (s : string)
| FNone.

(** Exceptions of [InferenceEvaluation]: [IndexError] of [file_path[0]],
    and the exceptions of the data service, the model and [json.dumps]. *)
Inductive iexn : Type :=
| IndexError
| PyExn (e : exn).

(** [InferenceEvaluation.get_first_entry_if_list(data)] *)
Definition get_first_entry_if_list (data : fpath) : fpath :=
  match data with
  | FList (x :: _) => FStr x
  | _ => data
  end.

(** [file_path[0]]: the first path of a list, the first character of a
    string; [IndexError] when empty, [TypeError] on [None]. *)
Definition index0 (p : fpath) : iexn + string :=
  match p with
  | FList (x :: _) => inr x
  | FList [] => inl IndexError
  | FStr (String a _) => inr (String a EmptyString)
  | FStr EmptyString => inl IndexError
  | FNone => inl (PyExn TypeError)
  end.

(** Calls made to the data service and to the model, in order. *)
Inductive icall : Type :=
| IGetFileName (rid : string)
| IDataGet (rid : string) (dir : string)
| ILoad (path : string)
| IEvaluate (rid : string) (file_path : fpath)
| IDataUpdate (rid : string) (metadata : pyval).

(** The attributes [root_directory], [save_directory] and [skip]. *)
Record icfg : Type := mk_icfg {
  root_directory : string;
  save_directory : string;
  skip : option Z
}.

(** What the data service, the file system (of type [F]) and the child
    class answer. *)
Record ienv (F : Type) : Type := mk_ienv {
  getFileName : string -> exn + string;
      (* self.df_api.getFileName(row.id) *)
  find_files_recursive : F -> string -> string -> list string;
      (* find_files_recursive(root_directory, filename) on a file system *)
  dataGet : string -> string -> F -> (exn + Z) * F;
      (* dataGet(row.id, save_directory, wait=True): ds_rep[0].task[0].status
         and the file system afterwards *)
  model_load : string -> option exn;
      (* self.model.load(path); [Some e]: it raised [e] *)
  evaluate : row -> fpath -> exn + option pyval;
      (* self.evaluate(row, file_path) of the child class *)
  dataUpdate : string -> pyval -> option exn
      (* self.df_api.dataUpdate(row.id, metadata=json.dumps(msg)) *)
}.
Arguments mk_ienv {F}.
Arguments getFileName {F}.
Arguments find_files_recursive {F}.
Arguments dataGet {F}.
Arguments model_load {F}.
Arguments evaluate {F}.
Arguments dataUpdate {F}.

Record istate (F : Type) : Type := mk_istate { fs : F; icalls : list icall }.
Arguments mk_istate {F}.
Arguments fs {F}.
Arguments icalls {F}.

Definition iemit {F} (k : icall) (s : istate F) : istate F :=
  mk_istate (fs s) (icalls s ++ [k]).

(** [InferenceEvaluation.file_not_found(filename, row)]; its log messages
    and [print] have no other effect.  [None] is [FNone]. *)
Definition file_not_found {F} (env : ienv F) (c : icfg) (filename : string) (r : row)
    (s : istate F) : (iexn + fpath) * istate F :=
  let s1 := iemit (IDataGet (row_id r) (save_directory c)) s in
  match dataGet env (row_id r) (save_directory c) (fs s1) with
  | (inl e, fs2) => (inl (PyExn e), mk_istate fs2 (icalls s1))
  | (inr status, fs2) =>
      if (status =? 3)%Z
      then (inr (FList (find_files_recursive env fs2 (root_directory c) filename)),
            mk_istate fs2 (icalls s1))
      else (inr FNone, mk_istate fs2 (icalls s1))
  end.

(** The end of [run_inference]: [self.model.load(file_path[0])] and
    [return self.evaluate(row, file_path)]. *)
Definition load_and_evaluate {F} (env : ienv F) (r : row) (file_path : fpath)
    (s : istate F) : (iexn + option pyval) * istate F :=
  match index0 file_path with
  | inl e => (inl e, s)
  | inr p0 =>
      let s1 := iemit (ILoad p0) s in
      match model_load env p0 with
      | Some e => (inl (PyExn e), s1)
      | None =>
          let s2 := iemit (IEvaluate (row_id r) file_path) s1 in
          match evaluate env r file_path with
          | inl e => (inl (PyExn e), s2)
          | inr msg => (inr msg, s2)
          end
      end
  end.

(** [InferenceEvaluation.run_inference(row)] *)
Definition run_inference {F} (env : ienv F) (c : icfg) (r : row) (s : istate F)
    : (iexn + option pyval) * istate F :=
  let s1 := iemit (IGetFileName (row_id r)) s in
  match getFileName env (row_id r) with
  | inl e => (inl (PyExn e), s1)
  | inr filename =>
      match find_files_recursive env (fs s1) (root_directory c) filename with
      | [] =>
          match file_not_found env c filename r s1 with
          | (inl e, s2) => (inl e, s2)
          | (inr p, s2) =>
              match get_first_entry_if_list p with
              | FNone => (inr None, s2)
              | p' => load_and_evaluate env r p' s2
              end
          end
      | l => load_and_evaluate env r (FList l) s1
      end
  end.

(** The loop of [InferenceEvaluation.run()] over [self.df.iterrows()]. *)
Fixpoint run_rows {F} (env : ienv F) (c : icfg) (rows : list row) (s : istate F)
    : (iexn + unit) * istate F :=
  match rows with
  | [] => (inr tt, s)
  | r :: t =>
      if match skip c with Some k => (row_index r <=? k)%Z | None => false end
      then run_rows env c t s
      else
        match run_inference env c r s with
        | (inl e, s1) => (inl e, s1)
        | (inr None, s1) => run_rows env c t s1
        | (inr (Some msg), s1) =>
            if negb (json_ok msg) then (inl (PyExn TypeError), s1)
            else
              let s2 := iemit (IDataUpdate (row_id r) msg) s1 in
              match dataUpdate env (row_id r) msg with
              | Some e => (inl (PyExn e), s2)
              | None => run_rows env c t s2
              end
        end
  end.

(** [InferenceEvaluation.run()] *)
Definition run {F} (env : ienv F) (c : icfg) (rows : list row) (s : istate F)
    : (iexn + unit) * istate F :=
  run_rows env c rows s.

(* ------------------------------------------------------------------ *)
(** ** More concrete instances *)

(** A model with an encoder and an optimizer, and a block without
    [state_dict]. *)
Definition enc_block : pyval := VObj (mk_pytype "__main__" "Encoder") true (Some []) (inr "Encoder()").
Definition model_dict0 : dict :=
  [("encoder", enc_block); ("optimizer", VObj (mk_pytype "torch.optim.adam" "Adam") true (Some []) (inr "Adam"))].
Definition state_dict0 (v : pyval) : exn + pyval :=
  match v with
  | VObj t _ _ _ => inr (VDict [("kind", VStr (ty_qualname t))])
  | _ => inl AttributeError
  end.

(** The model of [model_dict0], whose [torch.save] succeeds. *)
Definition tio0 : torch_io := mk_torch_io model_dict0 state_dict0 (fun _ _ => None).

(** A file system given by the list of its file paths. *)
Definition files_env : ienv (list string) :=
  mk_ienv (fun rid => inr ("model_" ++ rid ++ ".pt"))
          (fun files root name =>
             filter (fun p => prefix root p && String.eqb (basename p) name) files)
          (fun rid dir files =>
             if String.eqb rid "r9" then (inr 2%Z, files)
             else (inr 3%Z, (dir ++ "model_" ++ rid ++ ".pt") :: files))
          (fun _ => None)
          (fun r _ => if String.eqb (row_id r) "r5" then inr None
                      else inr (Some (VDict [("loss", VNum 1)])))
          (fun _ _ => None).
Definition icfg0 : icfg := mk_icfg "./tmp/" "./tmp/" (Some 1%Z).
Definition istate0 : istate (list string) := mk_istate ["./tmp/model_r1.pt"] [].

(** A computation on the logger that keeps [current_checkpoint_id],
    only appends to the call trace, and creates at most [k] records,
    whatever its outcome. *)
Definition keeps_ckpt {A} (k : nat) (m : M lstate A) : Prop :=
  forall s r s', m s = (r, s') ->
    current_checkpoint_id s' = current_checkpoint_id s /\
    exists new, calls s' = (calls s ++ new)%list /\ (count_creates new <= k)%nat.

(** The logger state after one [save] from [lstate0]. *)
Definition lstate_saved : lstate :=
  Eval vm_compute in
  snd (save cfg_log helpers0 service0 tio0 "epoch_1" true (Some "ckpt.pt")
            (Some [("lr", VNum 1)]) (Some [("lr", VNone)]) lstate0).

(* ================================================================== *)
(** * Properties *)

(** ** Monad and loop lemmas *)

Lemma for_each_skip {S A} (f : A -> M S unit) (pre post : list A) (x : A) :
  (forall s, f x s = (Ok tt, s)) ->
  forall s, for_each f (pre ++ x :: post) s = for_each f (pre ++ post) s.
Proof.
  intros Hx. induction pre as [|a pre IH]; intros s; simpl.
  - unfold bind. rewrite Hx. reflexivity.
  - unfold bind. destruct (f a s) as [[u|e] s']; [apply IH|reflexivity].
Qed.

Lemma casefold_app (a b : string) : casefold (a ++ b) = casefold a ++ casefold b.
Proof. induction a as [|ch a IH]; simpl; [reflexivity|now rewrite IH]. Qed.

Lemma contains_app_l (n a b : string) : contains n b = true -> contains n (a ++ b) = true.
Proof.
  induction a as [|ch a IH]; simpl; intros H; [exact H|].
  rewrite (IH H). apply orb_true_r.
Qed.

Lemma prefix_app (n a b : string) : prefix n a = true -> prefix n (a ++ b) = true.
Proof.
  revert a. induction n as [|cn n IH]; intros a H; [destruct (a ++ b); reflexivity|].
  destruct a as [|ca a]; simpl in *; [discriminate|].
  destruct (ascii_dec cn ca); [now apply IH|discriminate].
Qed.

Lemma contains_app_r (n a b : string) : contains n a = true -> contains n (a ++ b) = true.
Proof.
  induction a as [|ch a IH]; simpl; intros H.
  - destruct n; [destruct b; reflexivity|discriminate].
  - apply orb_true_iff in H as [H|H].
    + pose proof (prefix_app _ (String ch a) b H) as P. simpl in P.
      rewrite P. reflexivity.
    + rewrite (IH H). apply orb_true_r.
Qed.

(** A type whose name contains a word has a [str(type(.))] containing it. *)
Lemma contains_str_type (n : string) (t : pytype) :
  contains n (casefold (ty_qualname t)) = true ->
  contains n (casefold (str_type t)) = true.
Proof.
  intros H. unfold str_type.
  rewrite !casefold_app.
  apply contains_app_l, contains_app_l, contains_app_r. exact H.
Qed.

(** ** C7: missing inputs are configuration errors *)

(** C7: [getMetadata] raises [ValueError] with a descriptive message when
    [local_vars] is [None] (whatever [model_hyperparameters] is), and when
    [model_hyperparameters] is [None]; when both are given, the checks
    pass and the method goes on to assemble the record. *)
Theorem getMetadata_requires_inputs (c : logger_cfg) (h : helpers) :
  (forall hp s,
     getMetadata c h None hp s
     = (Err (ValueError "local_vars cannot be None"), mk_gstate initial_mp (logf s))) /\
  (forall lv s,
     getMetadata c h (Some lv) None s
     = (Err (ValueError "model_hyperparameters cannot be None"), mk_gstate initial_mp (logf s))) /\
  (forall lv hp s,
     getMetadata c h (Some lv) (Some hp) s
     = assemble_metadata c h lv hp (mk_gstate initial_mp (logf s))).
Proof.
  repeat split; intros; reflexivity.
Qed.

(** ** C6: classification priority for model blocks and optimizers *)

(** C6: for a kept pair whose name is a model block, or which is a
    non-string under an optimizer alias, the iteration stores into
    [Model Architecture] exactly: the optimizer serialization when the
    value is not a string and the name case-folds to an optimizer alias
    (whether or not the name is a model block), and otherwise the model
    serialization merged with the extracted attributes.  No later rule
    (list, hyperparameter, array, ...) is consulted. *)
Theorem process_var_architecture_priority (c : logger_cfg) (h : helpers)
    (hk : list string) (key : string) (v : pyval) (d : dict) (s : gstate) :
  keep_var (model_architecture_names c) key v = true ->
  dget MA (mp s) = Some (VDict d) ->
  (mem key (model_architecture_names c)
   || (negb (is_str v) && mem (casefold key) optimizer_aliases)) = true ->
  process_var c h hk (key, v) s =
  (Ok tt,
   mk_gstate
     (dset MA
        (VDict (dset key
                  (if negb (is_str v) && mem (casefold key) optimizer_aliases
                   then serialize_pytorch_optimizer h v
                   else VDict (dupdate (serialize_model h v) (extract_instance_attributes h v)))
                  d))
        (mp s))
     (logf s)).
Proof.
  intros Hk Hd Hm. unfold process_var. rewrite Hk. simpl negb. cbv iota.
  destruct (mem key (model_architecture_names c)) eqn:Ea;
  destruct (negb (is_str v) && mem (casefold key) optimizer_aliases) eqn:Eo;
  simpl in Hm; try discriminate;
  unfold set_sub, bind, get, put; simpl; rewrite Hd; reflexivity.
Qed.

Lemma process_var_architecture_priority_witness :
  keep_var ["encoder"] "optimizer" (VObj (mk_pytype "torch.optim.adam" "Adam") true (Some []) (inr "Adam"))
    = true /\
  dget MA (mp (mk_gstate initial_mp [])) = Some (VDict []) /\
  (mem "optimizer" ["encoder"]
   || (negb (is_str (VObj (mk_pytype "torch.optim.adam" "Adam") true (Some []) (inr "Adam")))
       && mem (casefold "optimizer") optimizer_aliases)) = true /\
  process_var cfg_shape helpers0 [] ("optimizer",
      VObj (mk_pytype "torch.optim.adam" "Adam") true (Some []) (inr "Adam"))
    (mk_gstate initial_mp []) =
  (Ok tt, mk_gstate (dset MA (VDict [("optimizer", VDict [("lr", VNum 1)])]) initial_mp) []).
Proof.
  split; [reflexivity|]. split; [reflexivity|]. split; [reflexivity|].
  exact (process_var_architecture_priority cfg_shape helpers0 [] "optimizer"
           (VObj (mk_pytype "torch.optim.adam" "Adam") true (Some []) (inr "Adam"))
           [] (mk_gstate initial_mp []) eq_refl eq_refl eq_refl).
Defined.

(** ** C3: lists *)

(** C3 (counterexample): a one-element list under the name [optimizer]
    is not unwrapped: the optimizer rule comes first, and the element
    does not reach [Model Parameters]. *)
Lemma getMetadata_list_named_optimizer :
  match getMetadata cfg_shape helpers0 (Some [("optimizer", VList [VNum 7])]) (Some []) gstate0 with
  | (Ok r, _) =>
      rec_lookup ["Model Parameters"; "optimizer"] r = None /\
      rec_lookup ["Model Parameters"; MA; "optimizer"] r = Some (VDict [("lr", VNum 1)])
  | (Err _, _) => False
  end.
Proof.
  vm_compute. split; reflexivity.
Qed.

(** C3 (amended): a kept list whose name is neither a model block nor an
    optimizer alias, and whose elements all convert with [str], is
    stored under [Model Parameters][name] as its only element when it has
    length 1 and as the list itself otherwise, provided the total length
    of the element strings is below 1000; at 1000 or more nothing is
    stored and the iteration completes without raising. *)
Theorem process_var_list (c : logger_cfg) (h : helpers) (hk : list string)
    (key : string) (l : list pyval) (n : nat) (s : gstate) :
  keep_var (model_architecture_names c) key (VList l) = true ->
  mem key (model_architecture_names c) = false ->
  mem (casefold key) optimizer_aliases = false ->
  sum_str_len l = inr n ->
  process_var c h hk (key, VList l) s =
  (Ok tt,
   if (n <? 1000)%nat
   then mk_gstate (dset key (match l with [x] => x | _ => VList l end) (mp s)) (logf s)
   else s).
Proof.
  intros Hk Ha Ho Hn. unfold process_var. rewrite Hk, Ha. simpl negb. cbv iota.
  simpl is_str. rewrite Ho. simpl andb. cbv iota.
  unfold bind, lift. rewrite Hn. unfold ret.
  destruct (n <? 1000)%nat; [|reflexivity].
  destruct l as [|x [|y t]]; reflexivity.
Qed.

Lemma process_var_list_witness :
  keep_var ["encoder"] "batch" (VList [VNum 12; VNum 3]) = true /\
  mem "batch" ["encoder"] = false /\
  mem (casefold "batch") optimizer_aliases = false /\
  sum_str_len [VNum 12; VNum 3] = inr 3%nat /\
  process_var cfg_shape helpers0 [] ("batch", VList [VNum 12; VNum 3]) gstate0 =
  (Ok tt, mk_gstate [("batch", VList [VNum 12; VNum 3])] []).
Proof.
  split; [reflexivity|]. split; [reflexivity|]. split; [reflexivity|].
  split; [reflexivity|].
  exact (process_var_list cfg_shape helpers0 [] "batch" [VNum 12; VNum 3] 3 gstate0
           eq_refl eq_refl eq_refl eq_refl).
Defined.

(** ** C4: hyperparameter arrays *)

Lemma shape_elementwise_lt_tuple_lt (a b : list Z) :
  shape_elementwise_lt a b = true -> tuple_lt a b = true.
Proof.
  revert b. induction a as [|x a IH]; intros b H; [discriminate|].
  destruct b as [|y b]; [destruct a; discriminate|].
  destruct a as [|x' a'], b as [|y' b']; simpl in H; try discriminate.
  - simpl. rewrite H. reflexivity.
  - apply andb_true_iff in H as [H1 H2].
    change (tuple_lt (x :: x' :: a') (y :: y' :: b'))
      with (if (x <? y)%Z then true else if (y <? x)%Z then false
            else tuple_lt (x' :: a') (y' :: b')).
    rewrite H1. reflexivity.
Qed.

Lemma shape_elementwise_ge_tuple_lt (a b : list Z) :
  shape_elementwise_ge a b = true -> tuple_lt a b = false.
Proof.
  revert b. induction a as [|x a IH]; intros b H.
  - destruct b; [reflexivity|discriminate].
  - destruct b as [|y b]; [discriminate|].
    simpl in H. apply andb_true_iff in H as [H1 H2].
    simpl. destruct (x <? y)%Z eqn:E; [apply Z.leb_le in H1; apply Z.ltb_lt in E; lia|].
    destruct (y <? x)%Z; [reflexivity|]. now apply IH.
Qed.

(** C4 (counterexample): an array named in both the hyperparameter set
    and [model_dict] goes to [Model Architecture], even when its shape is
    element-wise smaller than [input_data_shape]. *)
Lemma getMetadata_hyperparameter_block_array :
  shape_elementwise_lt [1; 1]%Z [2; 10]%Z = true /\
  match getMetadata cfg_block_w helpers0
          (Some [("w", VArray NDArray [1; 1]%Z (VList [VList [VNum 0]]) "[[0]]")])
          (Some [("w", VNone)]) gstate0 with
  | (Ok r, _) => rec_lookup ["Model Parameters"; MH; "w"] r = None
  | (Err _, _) => False
  end.
Proof.
  split; [reflexivity|]. vm_compute. reflexivity.
Qed.

(** C4 (amended): a kept numpy array or tensor whose name is in the
    hyperparameter set, is not a model block and is not an optimizer
    alias, with [input_data_shape] configured: the iteration stores
    nothing outside [Model Hyperparameters]; when the shape is
    element-wise smaller it stores [value.tolist()] there; when every
    dimension is at least the configured one it stores nothing. *)
Theorem process_var_hyperparameter_array (c : logger_cfg) (h : helpers)
    (hk : list string) (key : string) (k : array_kind) (shape : list Z)
    (data : pyval) (text : string) (ids : list Z) (d : dict) (s : gstate) :
  keep_var (model_architecture_names c) key (VArray k shape data text) = true ->
  mem key (model_architecture_names c) = false ->
  mem (casefold key) optimizer_aliases = false ->
  mem key hk = true ->
  input_data_shape c = Some ids ->
  dget MH (mp s) = Some (VDict d) ->
  let stored := (Ok tt, mk_gstate (dset MH (VDict (dset key data d)) (mp s)) (logf s)) in
  (process_var c h hk (key, VArray k shape data text) s = (Ok tt, s) \/
   process_var c h hk (key, VArray k shape data text) s = stored) /\
  (shape_elementwise_lt shape ids = true ->
   process_var c h hk (key, VArray k shape data text) s = stored) /\
  (shape_elementwise_ge shape ids = true ->
   process_var c h hk (key, VArray k shape data text) s = (Ok tt, s)).
Proof.
  intros Hk Ha Ho Hh Hi Hd stored.
  assert (E : process_var c h hk (key, VArray k shape data text) s =
              if tuple_lt shape ids then stored else (Ok tt, s)).
  { unfold process_var. rewrite Hk, Ha. simpl negb. cbv iota.
    simpl is_str. rewrite Ho. simpl andb. cbv iota. rewrite Hh, Hi.
    destruct (tuple_lt shape ids); [|reflexivity].
    unfold set_sub, bind, get, put. simpl. rewrite Hd. reflexivity. }
  rewrite E. split; [|split].
  - destruct (tuple_lt shape ids); auto.
  - intros Hl. now rewrite (shape_elementwise_lt_tuple_lt _ _ Hl).
  - intros Hg. now rewrite (shape_elementwise_ge_tuple_lt _ _ Hg).
Qed.

Lemma process_var_hyperparameter_array_witness :
  let w := VArray NDArray [3; 10]%Z (VList [VList []; VList []; VList []]) "[[] [] []]" in
  keep_var ["encoder"] "w" w = true /\
  mem "w" ["encoder"] = false /\
  mem (casefold "w") optimizer_aliases = false /\
  mem "w" ["w"] = true /\
  input_data_shape cfg_shape = Some [2; 10]%Z /\
  dget MH (mp (mk_gstate initial_mp [])) = Some (VDict []) /\
  process_var cfg_shape helpers0 ["w"] ("w", w) (mk_gstate initial_mp []) =
  (Ok tt, mk_gstate initial_mp []).
Proof.
  intros w. do 6 (split; [reflexivity|]).
  refine (proj2 (proj2 (process_var_hyperparameter_array cfg_shape helpers0 ["w"] "w" NDArray
            [3; 10]%Z (VList [VList []; VList []; VList []]) "[[] [] []]"
            [2; 10]%Z [] (mk_gstate initial_mp [])
            eq_refl eq_refl eq_refl eq_refl eq_refl eq_refl)) eq_refl).
Defined.

(** ** C5: values of data/loader types *)

Lemma getMetadata_some (c : logger_cfg) (h : helpers) lv hp s :
  getMetadata c h (Some lv) (Some hp) s = assemble_metadata c h lv hp (mk_gstate initial_mp (logf s)).
Proof. reflexivity. Qed.

Lemma keep_var_data_type (arch : list string) (key : string) (v : pyval) :
  contains "data" (casefold (ty_qualname (type_of v))) = true ->
  keep_var arch key v = false.
Proof.
  intros H. apply contains_str_type in H.
  unfold keep_var. change (casefold "data") with "data". rewrite H.
  simpl negb. rewrite !andb_false_r. reflexivity.
Qed.

Lemma prefix_app_inv (a b x : string) : prefix (a ++ b) x = true -> prefix a x = true.
Proof.
  revert x. induction a as [|ca a IH]; intros x H; [destruct x; reflexivity|].
  destruct x as [|cx x]; simpl in *; [discriminate|].
  destruct (ascii_dec ca cx); [now apply IH|discriminate].
Qed.

Lemma contains_app_inv (a b x : string) : contains (a ++ b) x = true -> contains a x = true.
Proof.
  induction x as [|ch x IH]; simpl; intros H.
  - destruct a; [reflexivity|discriminate].
  - apply orb_true_iff in H as [H|H].
    + pose proof (prefix_app_inv a b (String ch x) H) as P. simpl in P.
      rewrite P. reflexivity.
    + rewrite (IH H). apply orb_true_r.
Qed.

Lemma contains_dataloader_data (x : string) :
  contains "dataloader" x = true -> contains "data" x = true.
Proof. exact (contains_app_inv "data" "loader" x). Qed.

(** C5 (amended): a pair whose value's type name contains "data" or
    "dataloader" (case-insensitively), for instance a [DataLoader],
    contributes nothing: [getMetadata] on the snapshot with the pair
    returns the same record, log and errors as on the snapshot without it. *)
Theorem getMetadata_ignores_data_typed (c : logger_cfg) (h : helpers)
    (pre post : list (string * pyval)) (key : string) (v : pyval)
    (hp : option dict) (s : gstate) :
  contains "data" (casefold (ty_qualname (type_of v))) = true \/
  contains "dataloader" (casefold (ty_qualname (type_of v))) = true ->
  getMetadata c h (Some ((pre ++ (key, v) :: post)%list)) hp s =
  getMetadata c h (Some ((pre ++ post)%list)) hp s.
Proof.
  intros Hty.
  assert (Hd : contains "data" (casefold (ty_qualname (type_of v))) = true)
    by (destruct Hty as [H|H]; [exact H|now apply contains_dataloader_data]).
  assert (Hskip : forall s', process_var c h (map fst (match hp with Some d => d | None => [] end))
                               (key, v) s' = (Ok tt, s')).
  { intros s'. unfold process_var. rewrite (keep_var_data_type _ _ _ Hd). reflexivity. }
  destruct hp as [hp|]; [|reflexivity].
  rewrite !getMetadata_some. unfold assemble_metadata. unfold bind at 1 3.
  rewrite (for_each_skip _ pre post (key, v) Hskip). reflexivity.
Qed.

Lemma getMetadata_ignores_data_typed_witness :
  (contains "data" (casefold (ty_qualname (type_of loader))) = true \/
   contains "dataloader" (casefold (ty_qualname (type_of loader))) = true) /\
  getMetadata cfg_log helpers0 (Some [("lr", VNum 1); ("train_loader", loader)]) (Some [("lr", VNone)]) gstate0 =
  getMetadata cfg_log helpers0 (Some [("lr", VNum 1)]) (Some [("lr", VNone)]) gstate0.
Proof.
  assert (H : contains "data" (casefold (ty_qualname (type_of loader))) = true \/
              contains "dataloader" (casefold (ty_qualname (type_of loader))) = true)
    by (left; reflexivity).
  split; [exact H|].
  exact (getMetadata_ignores_data_typed cfg_log helpers0 [("lr", VNum 1)] [] "train_loader" loader
           (Some [("lr", VNone)]) gstate0 H).
Defined.

(** C5 (counterexample): a [DataLoader] named [timestamp] is dropped, but
    the name still appears in the record, as the key of the timestamp
    field that [getMetadata] always adds. *)
Lemma getMetadata_loader_named_timestamp :
  contains "data" (casefold (ty_qualname (type_of loader))) = true /\
  match getMetadata cfg_log helpers0 (Some [("timestamp", loader)]) (Some []) gstate0 with
  | (Ok r, _) => rec_lookup ["Model Parameters"; "timestamp"] r = Some (VStr "2024-01-01 00:00:00")
  | (Err _, _) => False
  end.
Proof.
  split; [reflexivity|]. vm_compute. reflexivity.
Qed.

(** ** C1: values stored without a JSON check *)

(** C1 (code_bug evidence): with [input_data_shape] unset, a tensor
    hyperparameter [lr = torch.tensor(1)] is stored as the tensor object
    itself, which [json.dumps] rejects. *)
Lemma getMetadata_stores_tensor_hyperparameter :
  input_data_shape cfg_log = None /\
  match getMetadata cfg_log helpers0 (Some [("lr", tensor_one)]) (Some [("lr", VNone)]) gstate0 with
  | (Ok r, _) => rec_lookup ["Model Parameters"; MH; "lr"] r = Some tensor_one /\
                 json_ok tensor_one = false
  | (Err _, _) => False
  end.
Proof.
  split; [reflexivity|]. vm_compute. split; reflexivity.
Qed.

(** ** C2: the last fallback and its log *)

(** C2 (code_bug evidence): when logging is on and a kept value fails
    both [json.dumps] and [str] (reaching the last branch), the handler
    writes the first log line and then raises the same exception again,
    because formatting [{value}] in the second line calls [str(value)]:
    the exception escapes the iteration, and [getMetadata] with it. *)
Theorem process_var_unprintable_logging_raises (c : logger_cfg) (h : helpers)
    (hk : list string) (key : string) (ty : pytype) (cb : bool) (e : exn) (s : gstate) :
  keep_var (model_architecture_names c) key (VObj ty cb None (inl e)) = true ->
  mem key (model_architecture_names c) = false ->
  mem (casefold key) optimizer_aliases = false ->
  mem key hk = false ->
  caught_by_fallback e = true ->
  logging c = true ->
  log_file_opens c = true ->
  process_var c h hk (key, VObj ty cb None (inl e)) s =
  (Err e, mk_gstate (mp s)
            (logf s ++ ["\n " ++ log_timestamp h ++ " - Could not convert " ++ key ++
                        " to JSON. " ++ key ++ " has type " ++ str_type (builtin "str")])).
Proof.
  intros Hk Ha Ho Hh Hc Hl Hf. unfold process_var. rewrite Hk, Ha. simpl negb. cbv iota.
  simpl is_str. rewrite Ho. simpl andb. cbv iota. rewrite Hh. simpl.
  rewrite Hc, Hl. unfold log_failure. rewrite Hf. simpl.
  reflexivity.
Qed.

Lemma process_var_unprintable_logging_raises_witness :
  keep_var ["encoder"] "x" unprintable = true /\
  mem "x" ["encoder"] = false /\
  mem (casefold "x") optimizer_aliases = false /\
  mem "x" [] = false /\
  caught_by_fallback TypeError = true /\
  logging cfg_log = true /\
  log_file_opens cfg_log = true /\
  process_var cfg_log helpers0 [] ("x", unprintable) (mk_gstate initial_mp []) =
  (Err TypeError, mk_gstate initial_mp
     ["\n 2024-01-01 00:00:00 - Could not convert x to JSON. x has type <class 'str'>"]) /\
  fst (getMetadata cfg_log helpers0 (Some [("x", unprintable)]) (Some []) gstate0) = Err TypeError.
Proof.
  do 7 (split; [reflexivity|]). split.
  - exact (process_var_unprintable_logging_raises cfg_log helpers0 [] "x"
             (mk_pytype "__main__" "Unprintable") false TypeError (mk_gstate initial_mp [])
             eq_refl eq_refl eq_refl eq_refl eq_refl eq_refl eq_refl).
  - vm_compute. reflexivity.
Defined.

(** ** C10, C9: [save] and [reset] *)

Ltac unfold_monad :=
  unfold bind, ret, raise, get, put, lift, emit, emit_create, set_notebook,
         set_dataset, set_current, in_getMetadata, reset in *; simpl in *.

Lemma ids_to_add_no_checkpoint (nb : option string) (ds : dsid) :
  ids_to_add nb None ds = (present [nb] ++ dataset_ids ds)%list.
Proof. destruct ds, nb; reflexivity. Qed.

(** The local checkpoint of [save]: what it raises and the [torch.save]
    call it makes. *)
Lemma save_local_result (svc : service) (tio : torch_io) (path : option string)
    (hp : option dict) (s : lstate) :
  save_local svc tio path hp s =
  (match local_error svc tio path hp with None => Ok tt | Some e => Err e end,
   mk_lstate (current_checkpoint_id s) (notebook_record_id s) (dataset_id s)
             (calls s ++ local_calls svc tio path hp)%list (log_chunks s)).
Proof.
  destruct s as [cur nb ds cl lg].
  unfold save_local, local_error, local_calls.
  destruct path as [p|]; [|unfold_monad; rewrite app_nil_r; reflexivity].
  destruct (negb (ends_with_zip p) && negb (path_exists svc p));
    [|unfold_monad; rewrite app_nil_r; reflexivity].
  destruct (torch_checkpoint (state_dict tio) (model_dict tio) hp) as [e|ck];
    [unfold_monad; rewrite app_nil_r; reflexivity|].
  unfold_monad. destruct (torch_save tio p ck); reflexivity.
Qed.

Lemma local_calls_torch (svc : service) (tio : torch_io) (path : option string)
    (hp : option dict) (k : call) :
  In k (local_calls svc tio path hp) -> exists p, k = CTorchSave p.
Proof.
  unfold local_calls. destruct path as [p|]; [|intros []].
  destruct (negb (ends_with_zip p) && negb (path_exists svc p)); [|intros []].
  destruct (torch_checkpoint _ _ _); [intros []|].
  intros [<-|[]]. exists p. reflexivity.
Qed.

(** The part of [save] before [getMetadata]: the local checkpoint, then
    [upload_dataset_to_DataFed] and [addDerivedFrom]. *)
Lemma save_prefix (c : logger_cfg) (h : helpers) (svc : service) (tio : torch_io)
    (name : string) (path : option string) lv hp (ls : lstate) :
  let torch := local_calls svc tio path hp in
  let nb := notebook_id_for_save ls in
  let ids := ids_to_add nb (current_checkpoint_id ls) (upload_dataset_result svc) in
  let ls1 := mk_lstate (current_checkpoint_id ls) nb (upload_dataset_result svc)
               (calls ls ++ torch ++ CUploadDataset :: dep_calls ids)%list (log_chunks ls) in
  save c h svc tio name true path lv hp ls =
  match local_error svc tio path hp with
  | Some e =>
      (Err e, mk_lstate (current_checkpoint_id ls) (notebook_record_id ls) (dataset_id ls)
                        (calls ls ++ torch)%list (log_chunks ls))
  | None =>
      (metadata <- in_getMetadata (getMetadata c h lv hp) ;;
       n <- emit_create name metadata (deps_of ids) ;;
       emit (CUploadFile (new_record_id svc n) (path_str path)) ;;;
       set_current (Some (new_record_id svc n))) ls1
  end.
Proof.
  intros torch nb ids ls1. unfold ls1, torch, ids, nb. clear.
  unfold save. unfold bind at 1. rewrite save_local_result.
  destruct (local_error svc tio path hp); [reflexivity|].
  destruct ls as [cur nbr ds cl lg].
  unfold_monad. unfold notebook_id_for_save. simpl.
  destruct (ids_to_add _ _ _) eqn:Ei; simpl; rewrite <- ?app_assoc; reflexivity.
Qed.

(** [save] after [addDerivedFrom]: on success one record is created and the
    file uploaded to it; on failure of [getMetadata] nothing more is
    called.  The notebook and dataset ids are left alone. *)
Lemma save_rest (c : logger_cfg) (h : helpers) (svc : service) (name : string)
    (path : option string) lv hp (deps : option (list string)) (ls1 : lstate) r ls2 :
  (metadata <- in_getMetadata (getMetadata c h lv hp) ;;
   n <- emit_create name metadata deps ;;
   emit (CUploadFile (new_record_id svc n) (path_str path)) ;;;
   set_current (Some (new_record_id svc n))) ls1 = (r, ls2) ->
  notebook_record_id ls2 = notebook_record_id ls1 /\
  ((exists md, r = Ok tt /\
     calls ls2 = (calls ls1 ++ [CCreate name md deps;
                               CUploadFile (new_record_id svc (length (calls ls1))) (path_str path)])%list /\
     current_checkpoint_id ls2 = Some (new_record_id svc (length (calls ls1)))) \/
   (exists e, r = Err e /\ calls ls2 = calls ls1 /\
     current_checkpoint_id ls2 = current_checkpoint_id ls1)).
Proof.
  intros H. unfold in_getMetadata, bind at 1 in H.
  destruct (getMetadata c h lv hp (mk_gstate [] (log_chunks ls1))) as [[md|e] g].
  - unfold_monad. injection H as <- <-. simpl. split; [reflexivity|].
    left. exists md. split; [reflexivity|]. split; [|reflexivity].
    rewrite <- app_assoc. reflexivity.
  - injection H as <- <-. simpl. split; [reflexivity|].
    right. exists e. split; [reflexivity|]. split; reflexivity.
Qed.

(** Every outcome of [save] with the upload requested: the local
    checkpoint raises before any data-service call, or the upload and
    [addDerivedFrom] are made and then [getMetadata] either raises or a
    record is created, the file uploaded to it, and its id becomes
    [current_checkpoint_id]. *)
Lemma save_outcome (c : logger_cfg) (h : helpers) (svc : service) (tio : torch_io)
    (name : string) (path : option string) lv hp (ls : lstate) r ls2 :
  save c h svc tio name true path lv hp ls = (r, ls2) ->
  let nb := notebook_id_for_save ls in
  let ids := ids_to_add nb (current_checkpoint_id ls) (upload_dataset_result svc) in
  let pre := (calls ls ++ local_calls svc tio path hp ++ CUploadDataset :: dep_calls ids)%list in
  (exists e, local_error svc tio path hp = Some e /\ r = Err e /\
     calls ls2 = (calls ls ++ local_calls svc tio path hp)%list /\
     current_checkpoint_id ls2 = current_checkpoint_id ls /\
     notebook_record_id ls2 = notebook_record_id ls) \/
  (local_error svc tio path hp = None /\ notebook_record_id ls2 = nb /\
   ((exists md, r = Ok tt /\
      calls ls2 = (pre ++ [CCreate name md (deps_of ids);
                           CUploadFile (new_record_id svc (length pre)) (path_str path)])%list /\
      current_checkpoint_id ls2 = Some (new_record_id svc (length pre))) \/
    (exists e, r = Err e /\ calls ls2 = pre /\ current_checkpoint_id ls2 = current_checkpoint_id ls))).
Proof.
  intros H nb ids pre.
  rewrite (save_prefix c h svc tio name path lv hp ls) in H. cbv zeta in H.
  destruct (local_error svc tio path hp) as [e|] eqn:El.
  - left. injection H as <- <-. exists e. repeat split; reflexivity.
  - right. split; [reflexivity|].
    apply save_rest in H as [Hnb Hr]. simpl in Hnb. split; [exact Hnb|].
    exact Hr.
Qed.

Lemma no_torch_tail (ids : list string) (rest : list call) (q : string) :
  (forall q', ~ In (CTorchSave q') rest) ->
  ~ In (CTorchSave q) (CUploadDataset :: dep_calls ids ++ rest)%list.
Proof.
  intros Hr [Hq|Hq]; [discriminate|].
  apply in_app_or in Hq as [Hq|Hq]; [|exact (Hr q Hq)].
  destruct ids; simpl in Hq; [exact Hq|]. destruct Hq as [Hq|[]]. discriminate.
Qed.

Lemma in_save_calls (svc : service) (tio : torch_io) (path : option string) (hp : option dict)
    (ids : list string) (rest : list call) (k : call) :
  In k (local_calls svc tio path hp ++ CUploadDataset :: dep_calls ids ++ rest)%list ->
  (exists p, k = CTorchSave p) \/ k = CUploadDataset \/ k = CAddDerivedFrom ids \/ In k rest.
Proof.
  intros Hk. apply in_app_or in Hk as [Hk|[Hk|Hk]].
  - left. exact (local_calls_torch svc tio path hp k Hk).
  - right. left. symmetry. exact Hk.
  - apply in_app_or in Hk as [Hk|Hk]; [|right; right; right; exact Hk].
    destruct ids; simpl in Hk; [destruct Hk|].
    destruct Hk as [<-|[]]. right; right; left; reflexivity.
Qed.

(** C10: when [save] is asked to upload but [local_vars] or
    [model_hyperparameters] is missing, the configuration [ValueError] is
    raised only after the local checkpoint, the [upload_dataset_to_DataFed]
    call and (for a non-empty dependency list) the [addDerivedFrom] call
    have been made: these effects are not undone.  (When the local
    checkpoint itself raises, that exception comes first and no
    configuration error is raised.) *)
Theorem save_config_error_after_service_calls (c : logger_cfg) (h : helpers) (svc : service)
    (tio : torch_io) (name : string) (path : option string) lv hp (ls : lstate) :
  lv = None \/ hp = None ->
  match local_error svc tio path hp with
  | Some e =>
      exists ls2,
        save c h svc tio name true path lv hp ls = (Err e, ls2) /\
        calls ls2 = (calls ls ++ local_calls svc tio path hp)%list
  | None =>
      exists msg ls2,
        save c h svc tio name true path lv hp ls = (Err (ValueError msg), ls2) /\
        calls ls2 = (calls ls ++ local_calls svc tio path hp ++ CUploadDataset ::
                     dep_calls (ids_to_add (notebook_id_for_save ls) (current_checkpoint_id ls)
                                           (upload_dataset_result svc)))%list /\
        (msg = "local_vars cannot be None" \/ msg = "model_hyperparameters cannot be None")
  end.
Proof.
  intros Hnone.
  pose proof (save_prefix c h svc tio name path lv hp ls) as Hs. cbv zeta in Hs. rewrite Hs.
  destruct (local_error svc tio path hp) as [e|].
  - eexists. split; reflexivity.
  - destruct Hnone as [-> | ->].
    + eexists. eexists. split; [unfold getMetadata; unfold_monad; reflexivity|].
      split; [reflexivity|left; reflexivity].
    + destruct lv as [lv|].
      * eexists. eexists. split; [unfold getMetadata; unfold_monad; reflexivity|].
        split; [reflexivity|right; reflexivity].
      * eexists. eexists. split; [unfold getMetadata; unfold_monad; reflexivity|].
        split; [reflexivity|left; reflexivity].
Qed.

Lemma save_config_error_after_service_calls_witness :
  (@None (list (string * pyval)) = None \/ @None dict = None) /\
  local_error service0 tio0 (Some "ckpt.pt") None = None /\
  exists msg ls2,
    save cfg_log helpers0 service0 tio0 "epoch_1" true (Some "ckpt.pt") None None lstate0
      = (Err (ValueError msg), ls2) /\
    calls ls2 = (calls lstate0 ++ local_calls service0 tio0 (Some "ckpt.pt") None ++ CUploadDataset ::
                 dep_calls (ids_to_add (notebook_id_for_save lstate0) (current_checkpoint_id lstate0)
                                       (upload_dataset_result service0)))%list /\
    (msg = "local_vars cannot be None" \/ msg = "model_hyperparameters cannot be None").
Proof.
  assert (H : @None (list (string * pyval)) = None \/ @None dict = None) by (left; reflexivity).
  assert (Hl : local_error service0 tio0 (Some "ckpt.pt") None = None) by (vm_compute; reflexivity).
  split; [exact H|]. split; [exact Hl|].
  pose proof (save_config_error_after_service_calls cfg_log helpers0 service0 tio0 "epoch_1"
                (Some "ckpt.pt") None None lstate0 H) as T.
  rewrite Hl in T. exact T.
Defined.

(** C9: after [reset()], the dependency list that the next [save] builds
    and passes to [addDerivedFrom] and to the record it creates holds the
    notebook id (when present) and the dataset id(s) only, with no
    previous checkpoint, whatever the outcome of that [save]; and every
    successful [save], from any state, replaces [current_checkpoint_id]
    (whatever it held) by the id of the record this [save] created and
    uploaded the file to. *)
Theorem reset_then_save_dependencies (c : logger_cfg) (h : helpers) (svc : service)
    (tio : torch_io) (name : string) (path : option string) lv hp (ls : lstate) :
  (let ids := (present [notebook_id_for_save ls] ++ dataset_ids (upload_dataset_result svc))%list in
   let (r, ls2) := (reset ;;; save c h svc tio name true path lv hp) ls in
   exists new,
     calls ls2 = (calls ls ++ new)%list /\
     (forall ids', In (CAddDerivedFrom ids') new -> ids' = ids) /\
     (forall t md deps, In (CCreate t md deps) new -> deps = deps_of ids)) /\
  (forall x ls2, save c h svc tio name true path lv hp ls = (Ok x, ls2) ->
     let ids := ids_to_add (notebook_id_for_save ls) (current_checkpoint_id ls) (upload_dataset_result svc) in
     exists md pre,
       calls ls2 = (calls ls ++ pre ++ [CCreate name md (deps_of ids);
                                        CUploadFile (new_record_id svc (length (calls ls ++ pre)))
                                                    (path_str path)])%list /\
       current_checkpoint_id ls2 = Some (new_record_id svc (length (calls ls ++ pre)))).
Proof.
  split.
  - cbv zeta.
    set (ls0 := mk_lstate None (notebook_record_id ls) (dataset_id ls) (calls ls) (log_chunks ls)).
    change ((reset ;;; save c h svc tio name true path lv hp) ls)
      with (save c h svc tio name true path lv hp ls0).
    destruct (save c h svc tio name true path lv hp ls0) as [r ls2] eqn:Hs.
    apply save_outcome in Hs. cbv zeta in Hs.
    change (notebook_id_for_save ls0) with (notebook_id_for_save ls) in Hs.
    change (current_checkpoint_id ls0) with (@None string) in Hs.
    change (calls ls0) with (calls ls) in Hs.
    rewrite ids_to_add_no_checkpoint in Hs.
    destruct Hs as [[e [_ [_ [Hc _]]]] | [_ [_ [[md [_ [Hc _]]]|[e [_ [Hc _]]]]]]];
      rewrite Hc; eexists; (split; [rewrite <- ?app_assoc; reflexivity|]).
    + split.
      * intros ids' Hi. destruct (local_calls_torch _ _ _ _ _ Hi). discriminate.
      * intros t md deps Hi. destruct (local_calls_torch _ _ _ _ _ Hi). discriminate.
    + split.
      * intros ids' Hi. apply in_save_calls in Hi.
        destruct Hi as [[p Hp]|[Hp|[Hp|[Hp|[Hp|[]]]]]]; try discriminate.
        injection Hp as ->. reflexivity.
      * intros t md' deps Hi. apply in_save_calls in Hi.
        destruct Hi as [[p Hp]|[Hp|[Hp|[Hp|[Hp|[]]]]]]; try discriminate.
        injection Hp as _ _ E. rewrite <- E. reflexivity.
    + split.
      * intros ids' Hi. rewrite <- (app_nil_r (dep_calls _)) in Hi. apply in_save_calls in Hi.
        destruct Hi as [[p Hp]|[Hp|[Hp|[]]]]; try discriminate.
        injection Hp as ->. reflexivity.
      * intros t md' deps Hi. rewrite <- (app_nil_r (dep_calls _)) in Hi. apply in_save_calls in Hi.
        destruct Hi as [[p Hp]|[Hp|[Hp|[]]]]; discriminate.
  - intros x ls2 Hs ids. apply save_outcome in Hs. cbv zeta in Hs.
    destruct Hs as [[e [_ [He _]]] | [_ [_ [[md [_ [Hc Hcur]]]|[e [He _]]]]]]; try discriminate.
    exists md, (local_calls svc tio path hp ++ CUploadDataset :: dep_calls ids)%list.
    split; [rewrite Hc; rewrite <- app_assoc; reflexivity|exact Hcur].
Qed.

(** ** C8: notebook records are created once per checksum *)

Lemma log_line_ok (c : logger_cfg) (msg : string) (s : lstate) :
  (logging c = false \/ log_file_opens c = true) ->
  exists chunks, log_line c msg s =
    (Ok tt, mk_lstate (current_checkpoint_id s) (notebook_record_id s) (dataset_id s) (calls s) chunks).
Proof.
  intros H. unfold log_line.
  destruct (logging c) eqn:El; simpl.
  - destruct H as [H|H]; [discriminate|]. rewrite H. simpl.
    eexists. reflexivity.
  - exists (log_chunks s). destruct s; reflexivity.
Qed.

(** Closes the case where [save_notebook] finds the same checksum. *)
Ltac nb_same :=
  split; [reflexivity|]; eexists; split; [rewrite <- ?app_assoc; reflexivity|];
  split; [intros _; split; reflexivity|intros Hne; exfalso; apply Hne; reflexivity].

(** Steps through the case where [save_notebook] creates a new record. *)
Ltac nb_create Hlog :=
  match goal with
  | |- context [log_line ?c ?m ?st] =>
      destruct (log_line_ok c m st Hlog) as [ch Hch]; rewrite Hch
  end;
  unfold_monad;
  split; [reflexivity|]; eexists; split; [rewrite <- ?app_assoc; reflexivity|];
  split; [intros Heq; exfalso|
          intros _; split; [reflexivity|eexists; split; [reflexivity|simpl;
            repeat first [left; rewrite <- ?app_assoc; reflexivity | right]]]].

(** C8: [save_notebook] for a notebook file [f] whose checksum is [ck]
    (and whose prior record, if any, carries a checksum): when the record
    it resolves to already stores [ck], no record is created and that
    record's id is kept; when there is no such record or it stores another
    checksum, exactly one record is created, the notebook is uploaded to
    it, and its id becomes [notebook_record_id].  (A log file that cannot
    be opened while logging is on makes the method raise instead.) *)
Theorem save_notebook_checksum_dedup (c : logger_cfg) (h : helpers) (svc : service)
    (f ck : string) (ls : lstate) :
  (logging c = false \/ log_file_opens c = true) ->
  notebook_checksum svc f = Some ck ->
  (prior_notebook_id svc f ls = None \/ prior_checksum svc f ls <> None) ->
  let (r, ls2) := save_notebook c h svc (Some f) ls in
  r = Ok tt /\
  exists new,
    calls ls2 = (calls ls ++ new)%list /\
    (prior_checksum svc f ls = Some ck ->
       count_creates new = 0 /\ notebook_record_id ls2 = prior_notebook_id svc f ls) /\
    (prior_checksum svc f ls <> Some ck ->
       count_creates new = 1 /\
       exists rid, notebook_record_id ls2 = Some rid /\ In (CUploadFile rid f) new).
Proof.
  intros Hlog Hck Hprior.
  unfold prior_checksum, prior_notebook_id in *.
  unfold save_notebook.
  destruct (prefix "d/" f) eqn:Ep.
  - unfold_monad. rewrite Hck. simpl.
    destruct (stored_checksum svc f) as [sc|] eqn:Es;
      [|destruct Hprior as [H|H]; [discriminate|congruence]].
    simpl. destruct (String.eqb ck sc) eqn:Eq.
    + apply String.eqb_eq in Eq. subst sc. nb_same.
    + nb_create Hlog. injection Heq as ->. rewrite String.eqb_refl in Eq. discriminate.
  - destruct (lookup_notebook svc f) as [rid|] eqn:El.
    + unfold_monad. rewrite Hck. simpl.
      destruct (stored_checksum svc rid) as [sc|] eqn:Es;
        [|destruct Hprior as [H|H]; [discriminate|congruence]].
      simpl. destruct (String.eqb ck sc) eqn:Eq.
      * apply String.eqb_eq in Eq. subst sc. nb_same.
      * nb_create Hlog. injection Heq as ->. rewrite String.eqb_refl in Eq. discriminate.
    + unfold_monad.
      match goal with
      | |- context [log_line ?c ?m ?st] =>
          destruct (log_line_ok c m st Hlog) as [ch0 Hch0]; rewrite Hch0
      end.
      unfold_monad. rewrite Hck. simpl.
      destruct (notebook_record_id ls) as [rid|] eqn:En.
      * destruct (stored_checksum svc rid) as [sc|] eqn:Es;
          [|destruct Hprior as [H|H]; [discriminate|congruence]].
        simpl. destruct (String.eqb ck sc) eqn:Eq.
        -- apply String.eqb_eq in Eq. subst sc. nb_same.
        -- nb_create Hlog. injection Heq as ->. rewrite String.eqb_refl in Eq. discriminate.
      * simpl. nb_create Hlog. discriminate.
Qed.

Lemma save_notebook_checksum_dedup_witness :
  (logging cfg_log = false \/ log_file_opens cfg_log = true) /\
  notebook_checksum service0 "train.ipynb" = Some "abc" /\
  (prior_notebook_id service0 "train.ipynb" lstate0 = None \/
   prior_checksum service0 "train.ipynb" lstate0 <> None) /\
  let (r, ls2) := save_notebook cfg_log helpers0 service0 (Some "train.ipynb") lstate0 in
  r = Ok tt /\
  exists new,
    calls ls2 = (calls lstate0 ++ new)%list /\
    (prior_checksum service0 "train.ipynb" lstate0 = Some "abc" ->
       count_creates new = 0 /\
       notebook_record_id ls2 = prior_notebook_id service0 "train.ipynb" lstate0) /\
    (prior_checksum service0 "train.ipynb" lstate0 <> Some "abc" ->
       count_creates new = 1 /\
       exists rid, notebook_record_id ls2 = Some rid /\ In (CUploadFile rid "train.ipynb") new).
Proof.
  assert (H1 : logging cfg_log = false \/ log_file_opens cfg_log = true) by (right; reflexivity).
  assert (H2 : notebook_checksum service0 "train.ipynb" = Some "abc") by reflexivity.
  assert (H3 : prior_notebook_id service0 "train.ipynb" lstate0 = None \/
               prior_checksum service0 "train.ipynb" lstate0 <> None)
    by (right; vm_compute; discriminate).
  split; [exact H1|]. split; [exact H2|]. split; [exact H3|].
  exact (save_notebook_checksum_dedup cfg_log helpers0 service0 "train.ipynb" "abc" lstate0 H1 H2 H3).
Defined.

(** ** The shape test of the hyperparameter branch *)

(** A hyperparameter array, with [input_data_shape] configured, is kept
    exactly when [value.shape < self.input_data_shape] in Python's tuple
    order, which is lexicographic: for instance a [(1, 100)] array is kept
    against an input shape of [(2, 10)]. *)
Theorem process_var_hyperparameter_shape_lexicographic (c : logger_cfg) (h : helpers)
    (hk : list string) (key : string) (k : array_kind) (shape : list Z)
    (data : pyval) (text : string) (ids : list Z) (d : dict) (s : gstate) :
  keep_var (model_architecture_names c) key (VArray k shape data text) = true ->
  mem key (model_architecture_names c) = false ->
  mem (casefold key) optimizer_aliases = false ->
  mem key hk = true ->
  input_data_shape c = Some ids ->
  dget MH (mp s) = Some (VDict d) ->
  process_var c h hk (key, VArray k shape data text) s =
  if tuple_lt shape ids
  then (Ok tt, mk_gstate (dset MH (VDict (dset key data d)) (mp s)) (logf s))
  else (Ok tt, s).
Proof.
  intros Hk Ha Ho Hh Hi Hd.
  unfold process_var. rewrite Hk, Ha. simpl negb. cbv iota.
  simpl is_str. rewrite Ho. simpl andb. cbv iota. rewrite Hh, Hi.
  destruct (tuple_lt shape ids); [|reflexivity].
  unfold set_sub, bind, get, put. simpl. rewrite Hd. reflexivity.
Qed.

Lemma process_var_hyperparameter_shape_lexicographic_witness :
  let w := VArray NDArray [1; 100]%Z (VList [VList []]) "[[...]]" in
  keep_var ["encoder"] "w" w = true /\
  mem "w" ["encoder"] = false /\
  mem (casefold "w") optimizer_aliases = false /\
  mem "w" ["w"] = true /\
  input_data_shape cfg_shape = Some [2; 10]%Z /\
  dget MH (mp (mk_gstate initial_mp [])) = Some (VDict []) /\
  shape_elementwise_lt [1; 100]%Z [2; 10]%Z = false /\
  process_var cfg_shape helpers0 ["w"] ("w", w) (mk_gstate initial_mp []) =
  (Ok tt, mk_gstate (dset MH (VDict [("w", VList [VList []])]) initial_mp) []).
Proof.
  intros w. do 7 (split; [reflexivity|]).
  exact (process_var_hyperparameter_shape_lexicographic cfg_shape helpers0 ["w"] "w" NDArray
           [1; 100]%Z (VList [VList []]) "[[...]]" [2; 10]%Z [] (mk_gstate initial_mp [])
           eq_refl eq_refl eq_refl eq_refl eq_refl eq_refl).
Defined.

(** [reset()] then [save] succeeds on a concrete logger, so the property
    about successful saves is not vacuous there. *)
Example reset_then_save_concrete :
  match (reset ;;; save cfg_log helpers0 service0 tio0 "epoch_1" true (Some "ckpt.pt")
                    (Some [("lr", VNum 1)]) (Some [("lr", VNone)])) lstate0 with
  | (Ok _, ls2) =>
      current_checkpoint_id ls2 = Some "d/203" /\
      In (CAddDerivedFrom ["d/100"; "d/7"]) (calls ls2)
  | (Err _, _) => False
  end.
Proof. vm_compute. split; [reflexivity|]. right; right; left; reflexivity. Qed.

(** Without [reset()], a successful [save] replaces the checkpoint id the
    logger held (["d/150"]) by the id of the record it created. *)
Example save_replaces_checkpoint_concrete :
  current_checkpoint_id lstate0 = Some "d/150" /\
  save cfg_log helpers0 service0 tio0 "epoch_1" true (Some "ckpt.pt")
       (Some [("lr", VNum 1)]) (Some [("lr", VNone)]) lstate0 = (Ok tt, lstate_saved) /\
  current_checkpoint_id lstate_saved = Some "d/203".
Proof. split; [reflexivity|]. split; [vm_compute; reflexivity|reflexivity]. Qed.

(** A model block without [state_dict()] makes [save] raise before any
    call to the data service, even with the upload requested. *)
Example save_local_failure_concrete :
  (save cfg_log helpers0 service0 (mk_torch_io (model_dict0 ++ [("head", VNum 1)])%list state_dict0
                                              (fun _ _ => None))
       "epoch_1" true (Some "ckpt.pt") (Some [("lr", VNum 1)]) (Some [("lr", VNone)]) lstate0)
  = (Err AttributeError, lstate0).
Proof. vm_compute. reflexivity. Qed.

(* ================================================================== *)
(** * Further properties of the code *)

(** ** Dictionary lemmas *)

Lemma dget_dset (k k' : string) (v : pyval) (d : dict) :
  dget k (dset k' v d) = if String.eqb k k' then Some v else dget k d.
Proof.
  induction d as [|[k1 v1] t IH]; simpl.
  - reflexivity.
  - destruct (String.eqb k' k1) eqn:E1.
    + apply String.eqb_eq in E1. subst k1. simpl.
      destruct (String.eqb k k'); reflexivity.
    + simpl. rewrite IH.
      destruct (String.eqb k k1) eqn:E2; [|reflexivity].
      apply String.eqb_eq in E2. subst k1.
      destruct (String.eqb k k') eqn:E3; [|reflexivity].
      apply String.eqb_eq in E3. subst k'. rewrite String.eqb_refl in E1. discriminate.
Qed.

Lemma dget_not_in (k : string) (d : dict) :
  ~ In k (map fst d) -> dget k d = None.
Proof.
  induction d as [|[k1 v1] t IH]; simpl; intros H; [reflexivity|].
  destruct (String.eqb k k1) eqn:E.
  - apply String.eqb_eq in E. subst. exfalso. apply H. left. reflexivity.
  - apply IH. intros H'. apply H. right. exact H'.
Qed.

Lemma dget_In (k : string) (d : dict) :
  In k (map fst d) -> exists v, dget k d = Some v /\ In (k, v) d.
Proof.
  induction d as [|[k1 v1] t IH]; simpl; intros H; [contradiction|].
  destruct (String.eqb k k1) eqn:E.
  - apply String.eqb_eq in E. subst. exists v1. split; [reflexivity|left; reflexivity].
  - destruct H as [H|H]; [subst; rewrite String.eqb_refl in E; discriminate|].
    destruct (IH H) as [v [Hv Hi]]. exists v. split; [exact Hv|right; exact Hi].
Qed.

Lemma mem_In (k : string) (l : list string) : mem k l = true <-> In k l.
Proof.
  unfold mem. rewrite existsb_exists. split.
  - intros [x [Hx Heq]]. apply String.eqb_eq in Heq. subst. exact Hx.
  - intros H. exists k. split; [exact H|apply String.eqb_refl].
Qed.

(** [d.update(e)] for a dict [e] (distinct keys): [e]'s entries win. *)
Lemma dget_dupdate (k : string) (d e : dict) :
  NoDup (map fst e) ->
  dget k (dupdate d e) = match dget k e with Some v => Some v | None => dget k d end.
Proof.
  revert d. induction e as [|[k1 v1] t IH]; intros d Hnd; [reflexivity|].
  simpl in Hnd. inversion Hnd as [|? ? Hnot Hnd']; subst.
  unfold dupdate. simpl. fold (dupdate (dset k1 v1 d) t).
  rewrite (IH _ Hnd'). rewrite dget_dset.
  destruct (String.eqb k k1) eqn:E.
  - apply String.eqb_eq in E. subst. rewrite (dget_not_in _ _ Hnot). reflexivity.
  - destruct (dget k t); reflexivity.
Qed.

(** The loop of [getModelArchitectureStateDict], entry by entry. *)
Lemma state_dicts_lookup (sd : pyval -> exn + pyval) (md : dict) (bs : list string)
    (acc r : dict) (k : string) :
  state_dicts sd md bs acc = inr r ->
  dget k r = if mem k bs
             then match dget k md with
                  | Some b => match sd b with inr v => Some v | inl _ => None end
                  | None => None
                  end
             else dget k acc.
Proof.
  revert acc. induction bs as [|b t IH]; intros acc H; simpl in H.
  - injection H as <-. reflexivity.
  - destruct (dget b md) as [v0|] eqn:Eb; [|discriminate].
    destruct (sd v0) as [e|s0] eqn:Es; [discriminate|].
    rewrite (IH _ H). unfold mem. simpl. fold (mem k t).
    destruct (mem k t); [rewrite orb_true_r; reflexivity|rewrite orb_false_r].
    rewrite dget_dset. destruct (String.eqb k b) eqn:E; [|reflexivity].
    apply String.eqb_eq in E. subst. rewrite Eb, Es. reflexivity.
Qed.

Lemma state_dicts_total (sd : pyval -> exn + pyval) (md : dict) :
  (forall k b, In (k, b) md -> exists v, sd b = inr v) ->
  forall bs acc, (forall b, In b bs -> In b (map fst md)) ->
  exists r, state_dicts sd md bs acc = inr r.
Proof.
  intros Hall bs. induction bs as [|b t IH]; intros acc Hbs; simpl; [eauto|].
  destruct (dget_In b md (Hbs b (or_introl eq_refl))) as [v [Hv Hi]].
  rewrite Hv. destruct (Hall _ _ Hi) as [w Hw]. rewrite Hw.
  apply IH. intros x Hx. apply Hbs. right. exact Hx.
Qed.

(** ** Which pairs of the snapshot [getMetadata] ignores *)

(** A pair the filter at the top of the loop rejects changes nothing. *)
Lemma getMetadata_drop_pair (c : logger_cfg) (h : helpers)
    (pre post : list (string * pyval)) (key : string) (v : pyval) (hp : option dict) (s : gstate) :
  keep_var (model_architecture_names c) key v = false ->
  getMetadata c h (Some ((pre ++ (key, v) :: post)%list)) hp s =
  getMetadata c h (Some ((pre ++ post)%list)) hp s.
Proof.
  intros Hk.
  destruct hp as [hp|]; [|reflexivity].
  assert (Hskip : forall s', process_var c h (map fst hp) (key, v) s' = (Ok tt, s')).
  { intros s'. unfold process_var. rewrite Hk. reflexivity. }
  rewrite !getMetadata_some. unfold assemble_metadata. unfold bind at 1 3.
  rewrite (for_each_skip _ pre post (key, v) Hskip). reflexivity.
Qed.

Ltac kill_andb :=
  repeat match goal with
         | |- context [?a && false] => rewrite (andb_false_r a)
         | |- context [false && ?a] => rewrite (andb_false_l a)
         end.

(** Variables named privately ([_...]), named like the loop's own
    variables or the logger's arguments ([self], [key], [value],
    [checkpoint], ..., compared case-insensitively), or whose name
    contains [datafed] or [globus] (case-insensitively) contribute
    nothing: [getMetadata] returns the same record, log and errors with
    and without them. *)
Theorem getMetadata_ignores_excluded_names (c : logger_cfg) (h : helpers)
    (pre post : list (string * pyval)) (key : string) (v : pyval) (hp : option dict) (s : gstate) :
  (prefix "_" key = true \/ In (casefold key) excluded_names \/
   contains "datafed" (casefold key) = true \/ contains "globus" (casefold key) = true) ->
  getMetadata c h (Some ((pre ++ (key, v) :: post)%list)) hp s =
  getMetadata c h (Some ((pre ++ post)%list)) hp s.
Proof.
  intros H. apply getMetadata_drop_pair. unfold keep_var.
  destruct H as [H|[H|[H|H]]];
    [rewrite H | apply mem_In in H; rewrite H | rewrite H | rewrite H];
    simpl negb; kill_andb; reflexivity.
Qed.

Lemma getMetadata_ignores_excluded_names_witness :
  (prefix "_" "Self" = true \/ In (casefold "Self") excluded_names \/
   contains "datafed" (casefold "Self") = true \/ contains "globus" (casefold "Self") = true) /\
  getMetadata cfg_log helpers0 (Some [("lr", VNum 1); ("Self", VNum 5)]) (Some []) gstate0 =
  getMetadata cfg_log helpers0 (Some [("lr", VNum 1)]) (Some []) gstate0.
Proof.
  assert (H : prefix "_" "Self" = true \/ In (casefold "Self") excluded_names \/
              contains "datafed" (casefold "Self") = true \/
              contains "globus" (casefold "Self") = true)
    by (right; left; simpl; right; left; reflexivity).
  split; [exact H|].
  exact (getMetadata_ignores_excluded_names cfg_log helpers0 [("lr", VNum 1)] [] "Self" (VNum 5)
           (Some []) gstate0 H).
Defined.

Lemma pytype_eqb_refl (t : pytype) : pytype_eqb t t = true.
Proof. unfold pytype_eqb. rewrite !String.eqb_refl. reflexivity. Qed.

(** Values that are [None], of one of the excluded types (classes,
    modules, functions, bound methods, the DataFed [API], [DataLoader]),
    or callable (a function, an [nn.Module] instance, ...) under a name
    that is neither a key of [model_dict] nor literally one of
    [optimizer], [optim], [optim_], [optimizer_], contribute nothing:
    [getMetadata] returns the same record, log and errors with and
    without them. *)
Theorem getMetadata_ignores_excluded_values (c : logger_cfg) (h : helpers)
    (pre post : list (string * pyval)) (key : string) (v : pyval) (hp : option dict) (s : gstate) :
  (In (type_of v) excluded_types \/
   (py_callable v = true /\ ~ In key (model_architecture_names c) /\ ~ In key optimizer_aliases)) ->
  getMetadata c h (Some ((pre ++ (key, v) :: post)%list)) hp s =
  getMetadata c h (Some ((pre ++ post)%list)) hp s.
Proof.
  intros H. apply getMetadata_drop_pair. unfold keep_var.
  destruct H as [H|[H1 [H2 H3]]].
  - assert (E : existsb (pytype_eqb (type_of v)) excluded_types = true).
    { apply existsb_exists. exists (type_of v). split; [exact H|apply pytype_eqb_refl]. }
    rewrite E. simpl negb. kill_andb. reflexivity.
  - assert (E2 : mem key (model_architecture_names c) = false)
      by (destruct (mem key (model_architecture_names c)) eqn:E;
          [apply mem_In in E; contradiction|reflexivity]).
    assert (E3 : mem key optimizer_aliases = false)
      by (destruct (mem key optimizer_aliases) eqn:E; [apply mem_In in E; contradiction|reflexivity]).
    rewrite H1, E2, E3. simpl. kill_andb. reflexivity.
Qed.

Lemma getMetadata_ignores_excluded_values_witness :
  let model := VObj (mk_pytype "__main__" "VAE") true (Some [("z", VNum 2)]) (inr "VAE()") in
  (In (type_of model) excluded_types \/
   (py_callable model = true /\ ~ In "model" (model_architecture_names cfg_log) /\
    ~ In "model" optimizer_aliases)) /\
  getMetadata cfg_log helpers0 (Some [("lr", VNum 1); ("model", model)]) (Some []) gstate0 =
  getMetadata cfg_log helpers0 (Some [("lr", VNum 1)]) (Some []) gstate0.
Proof.
  intros model.
  assert (H : In (type_of model) excluded_types \/
              (py_callable model = true /\ ~ In "model" (model_architecture_names cfg_log) /\
               ~ In "model" optimizer_aliases)).
  { right. split; [reflexivity|]. split; simpl; intros Hc;
      repeat (destruct Hc as [Hc|Hc]; [discriminate|]); exact Hc. }
  split; [exact H|].
  exact (getMetadata_ignores_excluded_values cfg_log helpers0 [("lr", VNum 1)] [] "model" model
           (Some []) gstate0 H).
Defined.

(** ** The fields [getMetadata] always sets *)

(** Whatever the snapshot holds: a successful [getMetadata] records the
    current user and time under [Model Parameters] (a local variable or
    notebook field named [user] or [timestamp] is overwritten), puts the
    computer information under [System Information], and keeps every
    other field of the notebook metadata, which wins over a local
    variable of the same name. *)
Theorem getMetadata_fixed_fields (c : logger_cfg) (h : helpers)
    (lv : list (string * pyval)) (hp : dict) (s : gstate) (r : pyval) (s' : gstate) :
  NoDup (map fst (notebook_metadata h)) ->
  getMetadata c h (Some lv) (Some hp) s = (Ok r, s') ->
  rec_lookup ["Model Parameters"; "user"] r = Some (VStr (current_user h)) /\
  rec_lookup ["Model Parameters"; "timestamp"] r = Some (VStr (current_time h)) /\
  rec_lookup ["System Information"] r = Some (computer_info h) /\
  (forall k v, dget k (notebook_metadata h) = Some v -> k <> "user" -> k <> "timestamp" ->
     rec_lookup ["Model Parameters"; k] r = Some v).
Proof.
  intros Hnd H. rewrite getMetadata_some in H. unfold assemble_metadata, bind in H.
  destruct (for_each _ lv _) as [[u|e] g]; [|discriminate].
  unfold get, put, ret in H. injection H as <- _.
  unfold dupdate at 2. simpl fold_left.
  set (mp1 := dupdate (mp g) (notebook_metadata h)).
  split; [|split; [|split]].
  - simpl. rewrite !dget_dset. reflexivity.
  - simpl. rewrite !dget_dset. reflexivity.
  - reflexivity.
  - intros k v Hk Hu Ht. simpl. rewrite !dget_dset.
    destruct (String.eqb k "timestamp") eqn:E1; [apply String.eqb_eq in E1; contradiction|].
    destruct (String.eqb k "user") eqn:E2; [apply String.eqb_eq in E2; contradiction|].
    unfold mp1. rewrite (dget_dupdate _ _ _ Hnd), Hk. reflexivity.
Qed.

Lemma getMetadata_fixed_fields_witness :
  let res := getMetadata cfg_log helpers0 (Some [("user", VStr "someone"); ("script", VNum 0)])
                         (Some []) gstate0 in
  NoDup (map fst (notebook_metadata helpers0)) /\
  res = (Ok (VDict [("Model Parameters",
                     VDict [(MH, VDict []); (MA, VDict []); ("user", VStr "user0");
                            ("script", VDict [("checksum", VStr "abc")]);
                            ("timestamp", VStr "2024-01-01 00:00:00")]);
                    ("System Information", VDict [("cpu", VStr "x86")])]),
         mk_gstate [(MH, VDict []); (MA, VDict []); ("user", VStr "user0");
                    ("script", VDict [("checksum", VStr "abc")]);
                    ("timestamp", VStr "2024-01-01 00:00:00")] []) /\
  rec_lookup ["Model Parameters"; "user"] (VDict [("Model Parameters",
                     VDict [(MH, VDict []); (MA, VDict []); ("user", VStr "user0");
                            ("script", VDict [("checksum", VStr "abc")]);
                            ("timestamp", VStr "2024-01-01 00:00:00")]);
                    ("System Information", VDict [("cpu", VStr "x86")])])
    = Some (VStr (current_user helpers0)).
Proof.
  intros res.
  assert (Hnd : NoDup (map fst (notebook_metadata helpers0)))
    by (simpl; constructor; [intros []|constructor]).
  assert (Hres : res = (Ok (VDict [("Model Parameters",
                     VDict [(MH, VDict []); (MA, VDict []); ("user", VStr "user0");
                            ("script", VDict [("checksum", VStr "abc")]);
                            ("timestamp", VStr "2024-01-01 00:00:00")]);
                    ("System Information", VDict [("cpu", VStr "x86")])]),
         mk_gstate [(MH, VDict []); (MA, VDict []); ("user", VStr "user0");
                    ("script", VDict [("checksum", VStr "abc")]);
                    ("timestamp", VStr "2024-01-01 00:00:00")] []))
    by (vm_compute; reflexivity).
  split; [exact Hnd|]. split; [exact Hres|].
  exact (proj1 (getMetadata_fixed_fields cfg_log helpers0 _ _ _ _ _ Hnd Hres)).
Defined.

(** ** How single values are recorded *)



(** A kept list (not under a model-block or optimizer name) with an
    element whose [str()] raises makes the iteration raise that
    exception, with nothing stored and nothing logged, whether or not
    logging is on: the length sum of the list branch is outside any
    [try]. *)
Theorem process_var_list_unprintable (c : logger_cfg) (h : helpers) (hk : list string)
    (key : string) (l : list pyval) (s : gstate) :
  keep_var (model_architecture_names c) key (VList l) = true ->
  ~ In key (model_architecture_names c) ->
  ~ In (casefold key) optimizer_aliases ->
  (exists x, In x l /\ exists e', py_str x = inl e') ->
  exists e, process_var c h hk (key, VList l) s = (Err e, s).
Proof.
  intros Hk Ha Ho [x [Hx [e' He']]].
  assert (Ea : mem key (model_architecture_names c) = false)
    by (destruct (mem key (model_architecture_names c)) eqn:E;
        [apply mem_In in E; contradiction|reflexivity]).
  assert (Eo : mem (casefold key) optimizer_aliases = false)
    by (destruct (mem (casefold key) optimizer_aliases) eqn:E;
        [apply mem_In in E; contradiction|reflexivity]).
  assert (Hs : exists e0, sum_str_len l = inl e0).
  { clear -Hx He'. induction l as [|y t IH]; [contradiction|].
    simpl. destruct (py_str y) as [e1|sy] eqn:Ey; [eauto|].
    destruct Hx as [->|Hx]; [congruence|].
    destruct (IH Hx) as [e0 He0]. rewrite He0. eauto. }
  destruct Hs as [e0 He0]. exists e0.
  unfold process_var. rewrite Hk, Ea. simpl negb. cbv iota.
  simpl is_str. rewrite Eo. simpl andb. cbv iota.
  unfold bind, lift, raise. rewrite He0. reflexivity.
Qed.

Lemma process_var_list_unprintable_witness :
  keep_var ["encoder"] "layers" (VList [VNum 1; unprintable]) = true /\
  ~ In "layers" ["encoder"] /\
  ~ In (casefold "layers") optimizer_aliases /\
  (exists x, In x [VNum 1; unprintable] /\ exists e', py_str x = inl e') /\
  logging cfg_shape = false /\
  exists e, process_var cfg_shape helpers0 [] ("layers", VList [VNum 1; unprintable]) gstate0
            = (Err e, gstate0).
Proof.
  assert (H2 : ~ In "layers" ["encoder"]) by (simpl; intros [H|H]; [discriminate|exact H]).
  assert (H3 : ~ In (casefold "layers") optimizer_aliases)
    by (simpl; intros H; repeat (destruct H as [H|H]; [discriminate|]); exact H).
  assert (H4 : exists x, In x [VNum 1; unprintable] /\ exists e', py_str x = inl e')
    by (exists unprintable; split; [right; left; reflexivity|exists TypeError; reflexivity]).
  split; [reflexivity|]. split; [exact H2|]. split; [exact H3|]. split; [exact H4|].
  split; [reflexivity|].
  exact (process_var_list_unprintable cfg_shape helpers0 [] "layers" [VNum 1; unprintable]
           gstate0 eq_refl H2 H3 H4).
Defined.

(** A non-empty dict under an ordinary name (kept, not a model block,
    optimizer or hyperparameter) whose values are all plain JSON data
    ([None], booleans, integers, strings, and lists and dicts of these,
    which [json_ok] recognises) is stored as it is; but when its first
    value is an instance of a class defined in [__main__] (a notebook or
    script class), the dict is dropped, since [str(type(...))] of that value contains ["_"]. *)
Theorem process_var_dict (c : logger_cfg) (h : helpers) (hk : list string)
    (key k0 : string) (v0 : pyval) (rest : dict) (s : gstate) :
  let v := VDict ((k0, v0) :: rest) in
  keep_var (model_architecture_names c) key v = true ->
  ~ In key (model_architecture_names c) ->
  ~ In (casefold key) optimizer_aliases ->
  mem key hk = false ->
  (json_ok v = true -> process_var c h hk (key, v) s = (Ok tt, mk_gstate (dset key v (mp s)) (logf s))) /\
  (ty_module (type_of v0) = "__main__" -> process_var c h hk (key, v) s = (Ok tt, s)).
Proof.
  intros v Hk Ha Ho Hh. unfold v in *.
  assert (Ea : mem key (model_architecture_names c) = false)
    by (destruct (mem key (model_architecture_names c)) eqn:E;
        [apply mem_In in E; contradiction|reflexivity]).
  assert (Eo : mem (casefold key) optimizer_aliases = false)
    by (destruct (mem (casefold key) optimizer_aliases) eqn:E;
        [apply mem_In in E; contradiction|reflexivity]).
  assert (E : process_var c h hk (key, VDict ((k0, v0) :: rest)) s =
              if negb (contains "_" (str_type (type_of v0))) then
                if json_ok (VDict ((k0, v0) :: rest)) then set_mp key (VDict ((k0, v0) :: rest)) s
                else (s0 <- lift (py_str (VDict ((k0, v0) :: rest))) ;; set_mp key (VStr s0)) s
              else (Ok tt, s)).
  { unfold process_var. rewrite Hk, Ea.
    cbn -[str_type json_ok set_mp lift py_str contains mem casefold].
    rewrite Eo, Hh.
    destruct (negb (contains "_" (str_type (type_of v0)))); [|reflexivity].
    destruct (json_ok (VDict ((k0, v0) :: rest))); reflexivity. }
  rewrite E. split.
  - intros Hj. rewrite Hj.
    assert (Hnu : contains "_" (str_type (type_of v0)) = false).
    { simpl in Hj. apply andb_true_iff in Hj as [Hj _].
      destruct v0; try discriminate; reflexivity. }
    rewrite Hnu. reflexivity.
  - intros Hm.
    assert (Hu : contains "_" (str_type (type_of v0)) = true).
    { unfold str_type. rewrite Hm. simpl String.eqb. cbv iota.
      apply contains_app_l. apply contains_app_r. reflexivity. }
    rewrite Hu. reflexivity.
Qed.

Lemma process_var_dict_witness :
  let v := VDict [("a", VNum 1); ("b", VStr "x")] in
  keep_var ["encoder"] "cfg" v = true /\
  ~ In "cfg" ["encoder"] /\
  ~ In (casefold "cfg") optimizer_aliases /\
  mem "cfg" [] = false /\
  process_var cfg_log helpers0 [] ("cfg", v) gstate0 = (Ok tt, mk_gstate [("cfg", v)] []).
Proof.
  intros v.
  assert (H2 : ~ In "cfg" ["encoder"]) by (simpl; intros [H|H]; [discriminate|exact H]).
  assert (H3 : ~ In (casefold "cfg") optimizer_aliases)
    by (simpl; intros H; repeat (destruct H as [H|H]; [discriminate|]); exact H).
  split; [reflexivity|]. split; [exact H2|]. split; [exact H3|]. split; [reflexivity|].
  exact (proj1 (process_var_dict cfg_log helpers0 [] "cfg" "a" (VNum 1) [("b", VStr "x")] gstate0
                  eq_refl H2 H3 eq_refl) eq_refl).
Defined.

(** ** The local checkpoint *)

(** The checkpoint that [save] passes to [torch.save] holds, for a
    successful [getModelArchitectureStateDict]: each hyperparameter under
    its name, and each [model_dict] block's [state_dict()] under the
    block's name unless a hyperparameter has the same name (the
    hyperparameter wins), and nothing else.  It is produced whenever every
    block has a [state_dict()]. *)
Theorem torch_checkpoint_contents (sd : pyval -> exn + pyval) (md : dict) (hp : option dict) :
  let hps := match hp with Some d => d | None => [] end in
  (NoDup (map fst hps) ->
   forall ck, torch_checkpoint sd md hp = inr ck ->
   forall k, dget k ck =
     match dget k hps with
     | Some v => Some v
     | None => match dget k md with
               | Some b => match sd b with inr v => Some v | inl _ => None end
               | None => None
               end
     end) /\
  ((forall k b, In (k, b) md -> exists v, sd b = inr v) ->
   exists ck, torch_checkpoint sd md hp = inr ck).
Proof.
  intros hps. split.
  - intros Hnd ck H k. unfold torch_checkpoint in H.
    destruct (getModelArchitectureStateDict sd md) as [e|arch] eqn:Ea; [discriminate|].
    injection H as <-. fold hps. rewrite (dget_dupdate _ _ _ Hnd).
    destruct (dget k hps) as [v|]; [reflexivity|].
    unfold getModelArchitectureStateDict in Ea.
    rewrite (state_dicts_lookup _ _ _ _ _ k Ea).
    destruct (mem k (map fst md)) eqn:Em; [reflexivity|].
    rewrite (dget_not_in k md); [reflexivity|].
    intros Hin. apply mem_In in Hin. congruence.
  - intros Hall. unfold torch_checkpoint, getModelArchitectureStateDict.
    destruct (state_dicts_total sd md Hall (map fst md) [] (fun b H => H)) as [r Hr].
    rewrite Hr. eexists. reflexivity.
Qed.

Lemma torch_checkpoint_contents_witness :
  NoDup (map fst [("encoder", VNum 3); ("lr", VNum 1)]) /\
  torch_checkpoint state_dict0 model_dict0 (Some [("encoder", VNum 3); ("lr", VNum 1)]) =
    inr [("encoder", VNum 3); ("optimizer", VDict [("kind", VStr "Adam")]); ("lr", VNum 1)] /\
  dget "optimizer" [("encoder", VNum 3); ("optimizer", VDict [("kind", VStr "Adam")]); ("lr", VNum 1)] =
    Some (VDict [("kind", VStr "Adam")]).
Proof.
  assert (Hnd : NoDup (map fst [("encoder", VNum 3); ("lr", VNum 1)]))
    by (simpl; constructor; [intros [H|[]]; discriminate|constructor; [intros []|constructor]]).
  assert (Hck : torch_checkpoint state_dict0 model_dict0 (Some [("encoder", VNum 3); ("lr", VNum 1)]) =
    inr [("encoder", VNum 3); ("optimizer", VDict [("kind", VStr "Adam")]); ("lr", VNum 1)])
    by (vm_compute; reflexivity).
  split; [exact Hnd|]. split; [exact Hck|].
  exact (proj1 (torch_checkpoint_contents state_dict0 model_dict0
                  (Some [("encoder", VNum 3); ("lr", VNum 1)])) Hnd _ Hck "optimizer").
Defined.

(** ** [save] *)

(** With [datafed=False], [save] only builds and writes the local
    checkpoint (when a path is given that neither ends in [.zip] nor
    exists yet): it calls no data service, computes no metadata (so a
    missing [local_vars] or [model_hyperparameters] raises nothing), raises
    only what the checkpoint build or [torch.save] raises, and leaves every
    id of the logger unchanged. *)
Theorem save_local_only (c : logger_cfg) (h : helpers) (svc : service) (tio : torch_io)
    (name : string) (path : option string) lv hp (ls : lstate) :
  save c h svc tio name false path lv hp ls =
  (match local_error svc tio path hp with None => Ok tt | Some e => Err e end,
   mk_lstate (current_checkpoint_id ls) (notebook_record_id ls) (dataset_id ls)
             (calls ls ++ local_calls svc tio path hp)%list (log_chunks ls)).
Proof.
  unfold save. unfold bind at 1. rewrite save_local_result.
  destruct (local_error svc tio path hp); reflexivity.
Qed.

(** [save] never writes over a file: when [local_file_path] ends in
    [.zip] or already exists, no [torch.save] is made, with or without
    the upload; calls are only ever appended. *)
Theorem save_keeps_existing_files (c : logger_cfg) (h : helpers) (svc : service) (tio : torch_io)
    (name : string) (datafed : bool) (p : string) lv hp (ls : lstate) r ls2 :
  ends_with_zip p = true \/ path_exists svc p = true ->
  save c h svc tio name datafed (Some p) lv hp ls = (r, ls2) ->
  exists new, calls ls2 = (calls ls ++ new)%list /\ forall q, ~ In (CTorchSave q) new.
Proof.
  intros Hp H.
  assert (Ez : negb (ends_with_zip p) && negb (path_exists svc p) = false)
    by (destruct Hp as [E|E]; rewrite E; [reflexivity|apply andb_false_r]).
  assert (Hlc : local_calls svc tio (Some p) hp = []) by (unfold local_calls; rewrite Ez; reflexivity).
  destruct datafed.
  - apply save_outcome in H. cbv zeta in H. rewrite Hlc in H.
    destruct H as [[e [_ [_ [Hc _]]]] | [_ [_ [[md [_ [Hc _]]]|[e [_ [Hc _]]]]]]]; rewrite Hc.
    + exists []. split; [reflexivity|]. intros q [].
    + match type of Hc with
      | _ = ((calls ls ++ _ ++ CUploadDataset :: dep_calls ?I) ++ ?R)%list =>
          exists (CUploadDataset :: dep_calls I ++ R)%list
      end.
      split; [rewrite <- !app_assoc; reflexivity|].
      intros q. apply no_torch_tail. intros q' [Hq|[Hq|[]]]; discriminate.
    + match type of Hc with
      | _ = (calls ls ++ _ ++ CUploadDataset :: dep_calls ?I)%list =>
          exists (CUploadDataset :: dep_calls I ++ [])%list
      end.
      split; [rewrite app_nil_r; reflexivity|].
      intros q. apply no_torch_tail. intros q' [].
  - rewrite save_local_only, Hlc in H. injection H as _ <-. simpl.
    exists []. split; [reflexivity|]. intros q [].
Qed.

Lemma save_keeps_existing_files_witness :
  (ends_with_zip "run.zip" = true \/ path_exists service0 "run.zip" = true) /\
  save cfg_log helpers0 service0 tio0 "epoch_1" true (Some "run.zip") None None lstate0 =
  (Err (ValueError "local_vars cannot be None"),
   mk_lstate (Some "d/150") (Some "d/100") (DsStr "d/7")
             [CUploadDataset; CAddDerivedFrom ["d/100"; "d/150"; "d/7"]] []) /\
  exists new, [CUploadDataset; CAddDerivedFrom ["d/100"; "d/150"; "d/7"]] = (calls lstate0 ++ new)%list /\
              forall q, ~ In (CTorchSave q) new.
Proof.
  assert (H1 : ends_with_zip "run.zip" = true \/ path_exists service0 "run.zip" = true)
    by (left; reflexivity).
  assert (H2 : save cfg_log helpers0 service0 tio0 "epoch_1" true (Some "run.zip") None None lstate0 =
    (Err (ValueError "local_vars cannot be None"),
     mk_lstate (Some "d/150") (Some "d/100") (DsStr "d/7")
               [CUploadDataset; CAddDerivedFrom ["d/100"; "d/150"; "d/7"]] []))
    by (vm_compute; reflexivity).
  split; [exact H1|]. split; [exact H2|].
  exact (save_keeps_existing_files cfg_log helpers0 service0 tio0 "epoch_1" true "run.zip" None None
           lstate0 _ _ H1 H2).
Defined.

Lemma ids_to_add_has_checkpoint (nb : option string) (rid : string) (ds : dsid) :
  In rid (ids_to_add nb (Some rid) ds).
Proof. destruct nb, ds; simpl; auto. Qed.

(** Without [reset()], successive [save]s form a chain: a successful
    [save] sets [current_checkpoint_id] to the record it created and
    uploaded the file to, and the next [save] links its record to that
    one, through the [addDerivedFrom] call it makes (along with the
    notebook and dataset ids) once its own local checkpoint has not
    raised, whatever happens after. *)
Theorem save_chains_checkpoints (c : logger_cfg) (h : helpers) (svc : service) (tio : torch_io)
    (name1 name2 : string) (path1 path2 : option string) lv1 hp1 lv2 hp2
    (ls : lstate) x ls1 r ls2 :
  save c h svc tio name1 true path1 lv1 hp1 ls = (Ok x, ls1) ->
  local_error svc tio path2 hp2 = None ->
  save c h svc tio name2 true path2 lv2 hp2 ls1 = (r, ls2) ->
  exists rid,
    current_checkpoint_id ls1 = Some rid /\
    In (CUploadFile rid (path_str path1)) (calls ls1) /\
    let ids := ids_to_add (notebook_id_for_save ls1) (Some rid) (upload_dataset_result svc) in
    In rid ids /\
    exists new, calls ls2 = (calls ls1 ++ new)%list /\ In (CAddDerivedFrom ids) new.
Proof.
  intros H1 Hl2 H2.
  apply save_outcome in H1. cbv zeta in H1.
  destruct H1 as [[e [_ [He _]]] | [_ [_ [[md [_ [Hc1 Hcur1]]]|[e [He _]]]]]]; try discriminate.
  set (rid := new_record_id svc _) in Hc1, Hcur1.
  exists rid. split; [exact Hcur1|]. split.
  { rewrite Hc1. apply in_or_app. right. right. left. reflexivity. }
  cbv zeta.
  pose proof (ids_to_add_has_checkpoint (notebook_id_for_save ls1) rid (upload_dataset_result svc)) as Hin.
  split; [exact Hin|].
  apply save_outcome in H2. cbv zeta in H2. rewrite Hcur1 in H2.
  remember (ids_to_add (notebook_id_for_save ls1) (Some rid) (upload_dataset_result svc)) as ids eqn:Eids.
  destruct ids as [|i0 is]; [destruct Hin|].
  destruct H2 as [[e [He _]] | [_ [_ [[md2 [_ [Hc2 _]]]|[e2 [_ [Hc2 _]]]]]]];
    [rewrite Hl2 in He; discriminate| |];
    rewrite Hc2; (eexists; split; [rewrite <- ?app_assoc; reflexivity|]);
    apply in_or_app; right; simpl; right; left; reflexivity.
Qed.

Lemma save_chains_checkpoints_witness :
  let s1 := save cfg_log helpers0 service0 tio0 "epoch_1" true (Some "ckpt.pt")
                 (Some [("lr", VNum 1)]) (Some [("lr", VNone)]) lstate0 in
  let s2 := save cfg_log helpers0 service0 tio0 "epoch_2" true (Some "ckpt2.pt")
                 (Some [("lr", VNum 1)]) (Some [("lr", VNone)]) lstate_saved in
  s1 = (Ok tt, lstate_saved) /\
  local_error service0 tio0 (Some "ckpt2.pt") (Some [("lr", VNone)]) = None /\
  s2 = (fst s2, snd s2) /\
  exists rid,
    current_checkpoint_id lstate_saved = Some rid /\
    In (CUploadFile rid (path_str (Some "ckpt.pt"))) (calls lstate_saved) /\
    let ids := ids_to_add (notebook_id_for_save lstate_saved) (Some rid) (upload_dataset_result service0) in
    In rid ids /\
    exists new, calls (snd s2) = (calls lstate_saved ++ new)%list /\ In (CAddDerivedFrom ids) new.
Proof.
  intros s1 s2.
  assert (H1 : s1 = (Ok tt, lstate_saved)) by (vm_compute; reflexivity).
  assert (Hl : local_error service0 tio0 (Some "ckpt2.pt") (Some [("lr", VNone)]) = None)
    by (vm_compute; reflexivity).
  assert (H2 : s2 = (fst s2, snd s2)) by apply surjective_pairing.
  split; [exact H1|]. split; [exact Hl|]. split; [exact H2|].
  exact (save_chains_checkpoints cfg_log helpers0 service0 tio0 "epoch_1" "epoch_2" (Some "ckpt.pt")
           (Some "ckpt2.pt") _ _ _ _ lstate0 tt lstate_saved (fst s2) (snd s2) H1 Hl H2).
Defined.

(** A [save] with no [local_file_path] makes no [torch.save], whatever
    its outcome; when it succeeds, it still uploads to the new record,
    with the path [str(None)], that is ["None"]. *)
Theorem save_without_path_uploads_None (c : logger_cfg) (h : helpers) (svc : service)
    (tio : torch_io) (name : string) lv hp (ls : lstate) r ls2 :
  save c h svc tio name true None lv hp ls = (r, ls2) ->
  let ids := ids_to_add (notebook_id_for_save ls) (current_checkpoint_id ls) (upload_dataset_result svc) in
  (exists new, calls ls2 = (calls ls ++ new)%list /\ forall q, ~ In (CTorchSave q) new) /\
  (forall x, r = Ok x ->
   exists md rid,
     calls ls2 = (calls ls ++ CUploadDataset :: dep_calls ids ++
                  [CCreate name md (deps_of ids); CUploadFile rid "None"])%list /\
     current_checkpoint_id ls2 = Some rid).
Proof.
  intros H ids.
  apply save_outcome in H. cbv zeta in H.
  change (local_calls svc tio None hp) with (@nil call) in H.
  change (local_error svc tio None hp) with (@None exn) in H.
  destruct H as [[e [He _]] | [_ [_ [[md [Hr [Hc Hcur]]]|[e [Hr [Hc _]]]]]]]; [discriminate| |].
  - split.
    + exists (CUploadDataset :: dep_calls ids ++ [CCreate name md (deps_of ids);
                CUploadFile (new_record_id svc (length (calls ls ++ [] ++ CUploadDataset :: dep_calls ids)))
                            (path_str None)])%list.
      split; [rewrite Hc; rewrite <- !app_assoc; reflexivity|].
      intros q. apply no_torch_tail. intros q' [Hq|[Hq|[]]]; discriminate.
    + intros x _. do 2 eexists. split; [|exact Hcur].
      rewrite Hc. rewrite <- !app_assoc. reflexivity.
  - split.
    + exists (CUploadDataset :: dep_calls ids ++ [])%list.
      split; [rewrite Hc, app_nil_r; reflexivity|].
      intros q. apply no_torch_tail. intros q' [].
    + intros x Hx. rewrite Hr in Hx. discriminate.
Qed.

Lemma save_without_path_uploads_None_witness :
  let res := save cfg_log helpers0 service0 tio0 "epoch_1" true None
                  (Some [("lr", VNum 1)]) (Some [("lr", VNone)]) lstate0 in
  res = (Ok tt, snd res) /\
  let ids := ids_to_add (notebook_id_for_save lstate0) (current_checkpoint_id lstate0)
                        (upload_dataset_result service0) in
  (exists new, calls (snd res) = (calls lstate0 ++ new)%list /\ forall q, ~ In (CTorchSave q) new) /\
  (forall x, @Ok unit tt = Ok x ->
   exists md rid,
     calls (snd res) = (calls lstate0 ++ CUploadDataset :: dep_calls ids ++
                        [CCreate "epoch_1" md (deps_of ids); CUploadFile rid "None"])%list /\
     current_checkpoint_id (snd res) = Some rid).
Proof.
  intros res.
  assert (H : res = (Ok tt, snd res)) by (vm_compute; reflexivity).
  split; [exact H|].
  exact (save_without_path_uploads_None cfg_log helpers0 service0 tio0 "epoch_1" _ _ lstate0
           (Ok tt) (snd res) H).
Defined.

(** An empty [notebook_record_id] counts as none: once the local
    checkpoint has not raised, [save] resets it to [None] (it stays so
    whatever happens next) and the [addDerivedFrom] call it makes, if
    any, lists only the previous checkpoint and the dataset ids. *)
Theorem save_empty_notebook_id (c : logger_cfg) (h : helpers) (svc : service) (tio : torch_io)
    (name : string) (path : option string) lv hp (ls : lstate) r ls2 :
  notebook_record_id ls = Some "" ->
  local_error svc tio path hp = None ->
  save c h svc tio name true path lv hp ls = (r, ls2) ->
  notebook_record_id ls2 = None /\
  exists torch rest,
    calls ls2 = (calls ls ++ torch ++ CUploadDataset ::
                 dep_calls (ids_to_add None (current_checkpoint_id ls) (upload_dataset_result svc)) ++
                 rest)%list /\
    forall ids, ~ In (CAddDerivedFrom ids) rest.
Proof.
  intros Hnb Hl H.
  assert (Hn : notebook_id_for_save ls = None) by (unfold notebook_id_for_save; rewrite Hnb; reflexivity).
  apply save_outcome in H. cbv zeta in H. rewrite Hn in H.
  destruct H as [[e [He _]] | [_ [Hnb2 Hr]]]; [rewrite Hl in He; discriminate|].
  split; [exact Hnb2|].
  exists (local_calls svc tio path hp).
  destruct Hr as [[md [_ [Hc _]]]|[e [_ [Hc _]]]]; rewrite Hc.
  - eexists. split; [rewrite <- !app_assoc; reflexivity|].
    intros ids [Hi|[Hi|[]]]; discriminate.
  - exists []. split; [rewrite app_nil_r; reflexivity|]. intros ids [].
Qed.

Lemma save_empty_notebook_id_witness :
  let ls := mk_lstate None (Some "") DsNone [] [] in
  notebook_record_id ls = Some "" /\
  local_error service0 tio0 (Some "ckpt.pt") None = None /\
  save cfg_log helpers0 service0 tio0 "epoch_1" true (Some "ckpt.pt") None None ls =
  (Err (ValueError "local_vars cannot be None"),
   mk_lstate None None (DsStr "d/7") [CTorchSave "ckpt.pt"; CUploadDataset; CAddDerivedFrom ["d/7"]] []) /\
  None = @None string /\
  exists torch rest,
    [CTorchSave "ckpt.pt"; CUploadDataset; CAddDerivedFrom ["d/7"]] =
      (calls ls ++ torch ++ CUploadDataset ::
       dep_calls (ids_to_add None (current_checkpoint_id ls) (upload_dataset_result service0)) ++ rest)%list /\
    forall ids, ~ In (CAddDerivedFrom ids) rest.
Proof.
  intros ls.
  assert (H1 : notebook_record_id ls = Some "") by reflexivity.
  assert (Hl : local_error service0 tio0 (Some "ckpt.pt") None = None) by (vm_compute; reflexivity).
  assert (H2 : save cfg_log helpers0 service0 tio0 "epoch_1" true (Some "ckpt.pt") None None ls =
    (Err (ValueError "local_vars cannot be None"),
     mk_lstate None None (DsStr "d/7") [CTorchSave "ckpt.pt"; CUploadDataset; CAddDerivedFrom ["d/7"]] []))
    by (vm_compute; reflexivity).
  split; [exact H1|]. split; [exact Hl|]. split; [exact H2|].
  exact (save_empty_notebook_id cfg_log helpers0 service0 tio0 "epoch_1" (Some "ckpt.pt") None None ls
           _ _ H1 Hl H2).
Defined.

(** ** [save_notebook] *)

Lemma count_creates_app (a b : list call) :
  count_creates (a ++ b) = (count_creates a + count_creates b)%nat.
Proof. induction a as [|x a IH]; simpl; [reflexivity|destruct x; simpl; lia]. Qed.

Lemma keeps_ret {A} k (a : A) : keeps_ckpt k (ret a).
Proof.
  intros s r s' H. injection H as _ <-. split; [reflexivity|].
  exists []. rewrite app_nil_r. split; [reflexivity|simpl; lia].
Qed.

Lemma keeps_raise {A} k (e : exn) : keeps_ckpt k (@raise lstate A e).
Proof.
  intros s r s' H. injection H as _ <-. split; [reflexivity|].
  exists []. rewrite app_nil_r. split; [reflexivity|simpl; lia].
Qed.

Lemma keeps_get k : keeps_ckpt k get.
Proof.
  intros s r s' H. injection H as _ <-. split; [reflexivity|].
  exists []. rewrite app_nil_r. split; [reflexivity|simpl; lia].
Qed.

Lemma keeps_set_notebook k x : keeps_ckpt k (set_notebook x).
Proof.
  intros s r s' H. unfold_monad. injection H as _ <-. split; [reflexivity|].
  exists []. rewrite app_nil_r. split; [reflexivity|simpl; lia].
Qed.

Lemma keeps_set_dataset k x : keeps_ckpt k (set_dataset x).
Proof.
  intros s r s' H. unfold_monad. injection H as _ <-. split; [reflexivity|].
  exists []. rewrite app_nil_r. split; [reflexivity|simpl; lia].
Qed.

Lemma keeps_emit k (x : call) : (count_creates [x] <= k)%nat -> keeps_ckpt k (emit x).
Proof.
  intros Hx s r s' H. unfold_monad. injection H as _ <-. split; [reflexivity|].
  exists [x]. split; [reflexivity|exact Hx].
Qed.

Lemma keeps_emit_create t md deps : keeps_ckpt 1 (emit_create t md deps).
Proof.
  intros s r s' H. unfold_monad. injection H as _ <-. split; [reflexivity|].
  exists [CCreate t md deps]. split; [reflexivity|simpl; lia].
Qed.

Lemma keeps_log_line k (c : logger_cfg) (m : string) : keeps_ckpt k (log_line c m).
Proof.
  intros s r s' H. unfold log_line in H.
  destruct (logging c); [destruct (log_file_opens c)|]; unfold_monad; injection H as _ <-;
    (split; [reflexivity|]; exists []; rewrite app_nil_r; split; [reflexivity|simpl; lia]).
Qed.

Lemma keeps_bind {A B} k1 k2 k (m : M lstate A) (f : A -> M lstate B) :
  keeps_ckpt k1 m -> (forall a, keeps_ckpt k2 (f a)) -> (k1 + k2 <= k)%nat ->
  keeps_ckpt k (bind m f).
Proof.
  intros Hm Hf Hk s r s' H. unfold bind in H.
  destruct (m s) as [[a|e] s1] eqn:E.
  - destruct (Hm _ _ _ E) as [C1 [n1 [L1 K1]]].
    destruct (Hf a _ _ _ H) as [C2 [n2 [L2 K2]]].
    split; [congruence|]. exists (n1 ++ n2)%list.
    rewrite L2, L1, app_assoc. split; [reflexivity|]. rewrite count_creates_app. lia.
  - injection H as _ <-. destruct (Hm _ _ _ E) as [C1 [n1 [L1 K1]]].
    split; [exact C1|]. exists n1. split; [exact L1|lia].
Qed.

Ltac keeps_tac :=
  repeat match goal with
  | |- forall _, _ => intro
  | |- keeps_ckpt 1 (bind (emit_create _ _ _) _) => apply (keeps_bind 1 0 1); [| |lia]
  | |- keeps_ckpt ?k (bind _ _) => apply (keeps_bind 0 k k); [| |lia]
  | |- keeps_ckpt _ (emit_create _ _ _) => apply keeps_emit_create
  | |- keeps_ckpt _ (ret _) => apply keeps_ret
  | |- keeps_ckpt _ (raise _) => apply keeps_raise
  | |- keeps_ckpt _ get => apply keeps_get
  | |- keeps_ckpt _ (set_notebook _) => apply keeps_set_notebook
  | |- keeps_ckpt _ (set_dataset _) => apply keeps_set_dataset
  | |- keeps_ckpt _ (log_line _ _) => apply keeps_log_line
  | |- keeps_ckpt _ (emit _) => apply keeps_emit; simpl; lia
  | |- keeps_ckpt _ (match ?x with _ => _ end) => destruct x
  end.

(** Whatever its outcome (including an exception), [save_notebook] leaves
    [current_checkpoint_id] as it was, only appends to the calls made, and
    creates at most one record: calling it (from [__init__] or later)
    does not break the chain of checkpoints. *)
Theorem save_notebook_keeps_checkpoint (c : logger_cfg) (h : helpers) (svc : service)
    (script_path : option string) (ls : lstate) r ls2 :
  save_notebook c h svc script_path ls = (r, ls2) ->
  current_checkpoint_id ls2 = current_checkpoint_id ls /\
  exists new, calls ls2 = (calls ls ++ new)%list /\ (count_creates new <= 1)%nat.
Proof.
  revert ls r ls2. change (keeps_ckpt 1 (save_notebook c h svc script_path)).
  unfold save_notebook. keeps_tac.
Qed.

Lemma save_notebook_keeps_checkpoint_witness :
  let res := save_notebook cfg_log helpers0 service0 (Some "nb/new.ipynb") lstate0 in
  res = (fst res, snd res) /\
  current_checkpoint_id (snd res) = current_checkpoint_id lstate0 /\
  exists new, calls (snd res) = (calls lstate0 ++ new)%list /\ (count_creates new <= 1)%nat.
Proof.
  intros res.
  assert (H : res = (fst res, snd res)) by apply surjective_pairing.
  split; [exact H|].
  exact (save_notebook_keeps_checkpoint cfg_log helpers0 service0 (Some "nb/new.ipynb") lstate0 _ _ H).
Defined.

Lemma string_app_assoc (a b c : string) : (a ++ b) ++ c = a ++ (b ++ c).
Proof. induction a as [|x a IH]; simpl; [reflexivity|now rewrite IH]. Qed.

Lemma basename_aux_app (x y acc : string) :
  basename_aux (x ++ y) acc = basename_aux y (basename_aux x acc).
Proof.
  revert acc. induction x as [|a x IH]; intros acc; simpl; [reflexivity|].
  destruct (Ascii.eqb a "/"%char); apply IH.
Qed.

Lemma basename_aux_no_slash (b acc : string) :
  contains "/" b = false -> basename_aux b acc = acc ++ b.
Proof.
  revert acc. induction b as [|a b IH]; intros acc H; simpl.
  - induction acc as [|x acc IHa]; simpl; [reflexivity|now rewrite <- IHa].
  - simpl in H. apply orb_false_iff in H as [H1 H2].
    destruct (Ascii.eqb a "/"%char) eqn:Ea.
    + apply Ascii.eqb_eq in Ea. subst a. destruct b; vm_compute in H1; discriminate H1.
    + rewrite IH by exact H2. rewrite string_app_assoc. reflexivity.
Qed.

(** [path.split("/")[-1]] is the part after the last ["/"]. *)
Lemma basename_last (f b : string) :
  contains "/" b = false ->
  (f = b \/ exists dir, f = dir ++ "/" ++ b) -> basename f = b.
Proof.
  intros Hb [->|[dir ->]]; unfold basename.
  - rewrite basename_aux_no_slash by exact Hb. reflexivity.
  - rewrite basename_aux_app. simpl. rewrite basename_aux_no_slash by exact Hb. reflexivity.
Qed.

(** [save_notebook] on a notebook path that is not a record id, that the
    data service does not know, with no notebook record yet: the calls
    are exactly the lookup, the dataset upload, the [addDerivedFrom] of
    the dataset, the creation of a record titled with the last component
    of the path (derived from the dataset ids), and the upload of the
    notebook to that record, whose id becomes [notebook_record_id]; the
    checkpoint id is kept and, when logging, the "Uploading notebook"
    line is written twice. *)
Theorem save_notebook_first_upload (c : logger_cfg) (h : helpers) (svc : service)
    (f b ck : string) (ls : lstate) :
  contains "/" b = false ->
  (f = b \/ exists dir, f = dir ++ "/" ++ b) ->
  prefix "d/" f = false ->
  lookup_notebook svc f = None ->
  notebook_record_id ls = None ->
  notebook_checksum svc f = Some ck ->
  (logging c = false \/ log_file_opens c = true) ->
  let m := "\n " ++ log_timestamp h ++ " - Uploading notebook " ++ f ++ " to DataFed..." in
  let ds := upload_dataset_result svc in
  let rid := new_record_id svc (length (calls ls) + 3) in
  exists md,
    save_notebook c h svc (Some f) ls =
    (Ok tt, mk_lstate (current_checkpoint_id ls) (Some rid) ds
              (calls ls ++ [CLookupNotebook f; CUploadDataset; CAddDerivedFromDataset ds;
                            CCreate b md (Some (dataset_ids ds)); CUploadFile rid f])%list
              (log_chunks ls ++ if logging c then [m; m] else [])%list).
Proof.
  intros Hb Hf Hp Hl Hn Hck Hlog m ds rid.
  rewrite <- (basename_last f b Hb Hf).
  eexists. unfold save_notebook. rewrite Hp. unfold log_line.
  destruct ls as [cur nb0 ds0 cl lg]. simpl in Hn. subst nb0.
  unfold rid, m, ds. simpl.
  destruct (logging c) eqn:El.
  - destruct Hlog as [Hlog|Hlog]; [discriminate|]. rewrite Hlog.
    unfold_monad. rewrite Hl. unfold_monad. rewrite Hck. unfold_monad.
    rewrite !length_app. simpl. rewrite <- !app_assoc. simpl.
    replace (length cl + 1 + 1 + 1)%nat with (length cl + 3)%nat by lia.
    reflexivity.
  - unfold_monad. rewrite Hl. unfold_monad. rewrite Hck. unfold_monad.
    rewrite !length_app. simpl. rewrite <- !app_assoc. simpl.
    replace (length cl + 1 + 1 + 1)%nat with (length cl + 3)%nat by lia.
    rewrite app_nil_r. reflexivity.
Qed.

Lemma save_notebook_first_upload_witness :
  contains "/" "new.ipynb" = false /\
  ("nb/new.ipynb" = "new.ipynb" \/ exists dir, "nb/new.ipynb" = dir ++ "/" ++ "new.ipynb") /\
  prefix "d/" "nb/new.ipynb" = false /\
  lookup_notebook service0 "nb/new.ipynb" = None /\
  notebook_record_id (mk_lstate None None DsNone [] []) = None /\
  notebook_checksum service0 "nb/new.ipynb" = Some "abc" /\
  (logging cfg_log = false \/ log_file_opens cfg_log = true) /\
  let m := "\n " ++ log_timestamp helpers0 ++ " - Uploading notebook " ++ "nb/new.ipynb" ++ " to DataFed..." in
  let ds := upload_dataset_result service0 in
  let rid := new_record_id service0 (length (calls (mk_lstate None None DsNone [] [])) + 3) in
  exists md,
    save_notebook cfg_log helpers0 service0 (Some "nb/new.ipynb") (mk_lstate None None DsNone [] []) =
    (Ok tt, mk_lstate None (Some rid) ds
              ([] ++ [CLookupNotebook "nb/new.ipynb"; CUploadDataset; CAddDerivedFromDataset ds;
                      CCreate "new.ipynb" md (Some (dataset_ids ds)); CUploadFile rid "nb/new.ipynb"])%list
              ([] ++ if logging cfg_log then [m; m] else [])%list).
Proof.
  assert (H1 : contains "/" "new.ipynb" = false) by reflexivity.
  assert (H2 : "nb/new.ipynb" = "new.ipynb" \/ exists dir, "nb/new.ipynb" = dir ++ "/" ++ "new.ipynb")
    by (right; exists "nb"; reflexivity).
  assert (H3 : prefix "d/" "nb/new.ipynb" = false) by reflexivity.
  assert (H4 : lookup_notebook service0 "nb/new.ipynb" = None) by reflexivity.
  assert (H5 : notebook_record_id (mk_lstate None None DsNone [] []) = None) by reflexivity.
  assert (H6 : notebook_checksum service0 "nb/new.ipynb" = Some "abc") by reflexivity.
  assert (H7 : logging cfg_log = false \/ log_file_opens cfg_log = true) by (right; reflexivity).
  refine (conj H1 (conj H2 (conj H3 (conj H4 (conj H5 (conj H6 (conj H7 _))))))).
  exact (save_notebook_first_upload cfg_log helpers0 service0 "nb/new.ipynb" "new.ipynb" "abc"
           (mk_lstate None None DsNone [] []) H1 H2 H3 H4 H5 H6 H7).
Defined.

(** When [getNotebookMetadata] returns [None], [save_notebook] raises
    [ValueError("Failed to get metadata for notebook ...")] right after
    resolving the notebook id: besides the lookup (skipped for a path that
    is already a record id) no call is made, in particular no record is
    created, and the checkpoint id is kept. *)
Theorem save_notebook_missing_metadata (c : logger_cfg) (h : helpers) (svc : service)
    (f : string) (ls : lstate) :
  (logging c = false \/ log_file_opens c = true) ->
  notebook_checksum svc f = None ->
  exists ls2,
    save_notebook c h svc (Some f) ls = (Err (ValueError ("Failed to get metadata for notebook " ++ f)), ls2) /\
    current_checkpoint_id ls2 = current_checkpoint_id ls /\
    calls ls2 = (calls ls ++ if prefix "d/" f then [] else [CLookupNotebook f])%list.
Proof.
  intros Hlog Hck. unfold save_notebook.
  destruct (prefix "d/" f) eqn:Ep.
  - unfold_monad. rewrite Hck. unfold_monad.
    eexists. split; [reflexivity|]. simpl. rewrite app_nil_r. split; reflexivity.
  - unfold_monad. destruct (lookup_notebook svc f) as [rid|] eqn:El.
    + unfold_monad. rewrite Hck. unfold_monad.
      eexists. split; [reflexivity|]. simpl. split; reflexivity.
    + match goal with
      | |- context [log_line ?c ?m ?st] =>
          destruct (log_line_ok c m st Hlog) as [ch0 Hch0]; rewrite Hch0
      end.
      unfold_monad. rewrite Hck. unfold_monad.
      eexists. split; [reflexivity|]. simpl. split; reflexivity.
Qed.

Lemma save_notebook_missing_metadata_witness :
  let svc := mk_service (fun _ => None) (fun _ => None) (fun _ => None) (DsStr "d/7")
                        (fun n => "d/" ++ string_of_N (N.of_nat (200 + n))) (fun _ => false) in
  (logging cfg_log = false \/ log_file_opens cfg_log = true) /\
  notebook_checksum svc "nb/new.ipynb" = None /\
  exists ls2,
    save_notebook cfg_log helpers0 svc (Some "nb/new.ipynb") lstate0 =
      (Err (ValueError ("Failed to get metadata for notebook " ++ "nb/new.ipynb")), ls2) /\
    current_checkpoint_id ls2 = current_checkpoint_id lstate0 /\
    calls ls2 = (calls lstate0 ++ if prefix "d/" "nb/new.ipynb" then [] else [CLookupNotebook "nb/new.ipynb"])%list.
Proof.
  intros svc.
  assert (H1 : logging cfg_log = false \/ log_file_opens cfg_log = true) by (right; reflexivity).
  assert (H2 : notebook_checksum svc "nb/new.ipynb" = None) by reflexivity.
  refine (conj H1 (conj H2 _)).
  exact (save_notebook_missing_metadata cfg_log helpers0 svc "nb/new.ipynb" lstate0 H1 H2).
Defined.

(** [run_inference] on a row whose file is already under [root_directory]:
    nothing is downloaded ([dataGet] is not called, the file system is
    unchanged); the model is loaded from the first path found and the
    child class's [evaluate] receives the whole list of paths; its answer
    (or exception) is the result. *)
Theorem run_inference_local_file {F} (env : ienv F) (c : icfg) (r : row) (s : istate F)
    (filename p : string) (ps : list string) :
  getFileName env (row_id r) = inr filename ->
  find_files_recursive env (fs s) (root_directory c) filename = p :: ps ->
  model_load env p = None ->
  run_inference env c r s =
    (match evaluate env r (FList (p :: ps)) with
     | inl e => inl (PyExn e)
     | inr msg => inr msg
     end,
     mk_istate (fs s) (icalls s ++ [IGetFileName (row_id r); ILoad p;
                                     IEvaluate (row_id r) (FList (p :: ps))])%list).
Proof.
  intros Hn Hf Hl. unfold run_inference, load_and_evaluate, iemit.
  rewrite Hn. simpl. rewrite Hf. simpl. rewrite Hl. rewrite <- !app_assoc.
  destruct (evaluate env r (FList (p :: ps))); reflexivity.
Qed.

Lemma run_inference_local_file_witness :
  getFileName files_env (row_id (mk_row 1 "r1")) = inr "model_r1.pt" /\
  find_files_recursive files_env (fs istate0) (root_directory icfg0) "model_r1.pt" = ["./tmp/model_r1.pt"] /\
  model_load files_env "./tmp/model_r1.pt" = None /\
  run_inference files_env icfg0 (mk_row 1 "r1") istate0 =
    (match evaluate files_env (mk_row 1 "r1") (FList ["./tmp/model_r1.pt"]) with
     | inl e => inl (PyExn e)
     | inr msg => inr msg
     end,
     mk_istate (fs istate0) (icalls istate0 ++ [IGetFileName "r1"; ILoad "./tmp/model_r1.pt";
                                               IEvaluate "r1" (FList ["./tmp/model_r1.pt"])])%list).
Proof.
  assert (H1 : getFileName files_env (row_id (mk_row 1 "r1")) = inr "model_r1.pt") by reflexivity.
  assert (H2 : find_files_recursive files_env (fs istate0) (root_directory icfg0) "model_r1.pt"
               = ["./tmp/model_r1.pt"]) by reflexivity.
  assert (H3 : model_load files_env "./tmp/model_r1.pt" = None) by reflexivity.
  refine (conj H1 (conj H2 (conj H3 _))).
  exact (run_inference_local_file files_env icfg0 (mk_row 1 "r1") istate0 "model_r1.pt"
           "./tmp/model_r1.pt" [] H1 H2 H3).
Defined.

(** [run_inference] on a row whose file is not under [root_directory]
    asks the data service to download it ([dataGet]), then:
    - when the download task's status is not 3, returns [None] with no
      load and no evaluation;
    - when the status is 3 but the file still cannot be found, raises
      [IndexError] ([file_path[0]] on an empty list);
    - when the status is 3 and the file is found at [p], the model is
      loaded from [file_path[0]] where [file_path] is the string [p]
      itself, i.e. from the first character of [p], and [evaluate]
      receives [p] as a string. *)
Theorem run_inference_download {F} (env : ienv F) (c : icfg) (r : row) (s : istate F)
    (filename : string) (status : Z) (fs2 : F) :
  getFileName env (row_id r) = inr filename ->
  find_files_recursive env (fs s) (root_directory c) filename = [] ->
  dataGet env (row_id r) (save_directory c) (fs s) = (inr status, fs2) ->
  let tr := (icalls s ++ [IGetFileName (row_id r); IDataGet (row_id r) (save_directory c)])%list in
  (status <> 3%Z ->
     run_inference env c r s = (inr None, mk_istate fs2 tr)) /\
  (status = 3%Z -> find_files_recursive env fs2 (root_directory c) filename = [] ->
     run_inference env c r s = (inl IndexError, mk_istate fs2 tr)) /\
  (forall a rest ps, status = 3%Z ->
     find_files_recursive env fs2 (root_directory c) filename = String a rest :: ps ->
     model_load env (String a EmptyString) = None ->
     run_inference env c r s =
       (match evaluate env r (FStr (String a rest)) with
        | inl e => inl (PyExn e)
        | inr msg => inr msg
        end,
        mk_istate fs2 (tr ++ [ILoad (String a EmptyString); IEvaluate (row_id r) (FStr (String a rest))]))).
Proof.
  intros Hn Hf Hg tr.
  unfold run_inference, file_not_found, load_and_evaluate, iemit.
  rewrite Hn. simpl. rewrite Hf. simpl. rewrite Hg. unfold tr.
  repeat split.
  - intros Hs. apply Z.eqb_neq in Hs. rewrite Hs. simpl. rewrite <- app_assoc. reflexivity.
  - intros -> Hf2. simpl. rewrite Hf2. simpl. rewrite <- app_assoc. reflexivity.
  - intros a rest ps -> Hf2 Hl. simpl. rewrite Hf2. simpl. rewrite Hl.
    rewrite <- !app_assoc.
    destruct (evaluate env r (FStr (String a rest))); reflexivity.
Qed.

Lemma run_inference_download_witness :
  getFileName files_env (row_id (mk_row 2 "r2")) = inr "model_r2.pt" /\
  find_files_recursive files_env (fs istate0) (root_directory icfg0) "model_r2.pt" = [] /\
  dataGet files_env (row_id (mk_row 2 "r2")) (save_directory icfg0) (fs istate0)
    = (inr 3%Z, ["./tmp/model_r2.pt"; "./tmp/model_r1.pt"]) /\
  run_inference files_env icfg0 (mk_row 2 "r2") istate0 =
    (match evaluate files_env (mk_row 2 "r2") (FStr "./tmp/model_r2.pt") with
     | inl e => inl (PyExn e)
     | inr msg => inr msg
     end,
     mk_istate ["./tmp/model_r2.pt"; "./tmp/model_r1.pt"]
       ((icalls istate0 ++ [IGetFileName "r2"; IDataGet "r2" "./tmp/"]) ++
        [ILoad "."; IEvaluate "r2" (FStr "./tmp/model_r2.pt")])%list).
Proof.
  assert (H1 : getFileName files_env (row_id (mk_row 2 "r2")) = inr "model_r2.pt") by reflexivity.
  assert (H2 : find_files_recursive files_env (fs istate0) (root_directory icfg0) "model_r2.pt" = [])
    by reflexivity.
  assert (H3 : dataGet files_env (row_id (mk_row 2 "r2")) (save_directory icfg0) (fs istate0)
               = (inr 3%Z, ["./tmp/model_r2.pt"; "./tmp/model_r1.pt"])) by reflexivity.
  refine (conj H1 (conj H2 (conj H3 _))).
  destruct (run_inference_download files_env icfg0 (mk_row 2 "r2") istate0 _ _ _ H1 H2 H3)
    as [_ [_ H]].
  apply (H "."%char "/tmp/model_r2.pt" []); reflexivity.
Defined.

Lemma run_inference_skip_irrelevant {F} (env : ienv F) (c : icfg) (r : row) (s : istate F) :
  run_inference env c r s = run_inference env (mk_icfg (root_directory c) (save_directory c) None) r s.
Proof. destruct c; reflexivity. Qed.

(** [skip] filters rows by their dataframe index, not by position: with
    [skip = k], [run] behaves as [run] without skip on exactly the rows
    whose index is greater than [k], in their order. *)
Theorem run_skip_filters {F} (env : ienv F) (c : icfg) (k : Z) (rows : list row) (s : istate F) :
  skip c = Some k ->
  run env c rows s =
  run env (mk_icfg (root_directory c) (save_directory c) None)
      (filter (fun r => negb (row_index r <=? k)%Z) rows) s.
Proof.
  intros Hk. unfold run. revert s.
  induction rows as [|r t IH]; intros s; [reflexivity|].
  simpl. rewrite Hk.
  destruct (row_index r <=? k)%Z; simpl; [apply IH|].
  rewrite run_inference_skip_irrelevant.
  destruct (run_inference env _ r s) as [[e|[msg|]] s1]; [reflexivity| |apply IH].
  destruct (negb (json_ok msg)); [reflexivity|].
  destruct (dataUpdate env (row_id r) msg); [reflexivity|apply IH].
Qed.

Lemma run_skip_filters_witness :
  skip icfg0 = Some 1%Z /\
  run files_env icfg0 [mk_row 3 "r3"; mk_row 0 "r0"; mk_row 1 "r1"; mk_row 2 "r2"] istate0 =
  run files_env (mk_icfg (root_directory icfg0) (save_directory icfg0) None)
      (filter (fun r => negb (row_index r <=? 1)%Z)
              [mk_row 3 "r3"; mk_row 0 "r0"; mk_row 1 "r1"; mk_row 2 "r2"]) istate0.
Proof.
  assert (H : skip icfg0 = Some 1%Z) by reflexivity.
  exact (conj H (run_skip_filters files_env icfg0 1%Z _ istate0 H)).
Defined.

(** The loop of [run] threads its state through the rows: running two
    lists of rows one after the other is running the first and, unless it
    raised, the second from where the first ended; an exception stops the
    loop, so no later row is loaded, evaluated or updated. *)
Theorem run_rows_app {F} (env : ienv F) (c : icfg) (rows1 rows2 : list row) (s : istate F) :
  run_rows env c (rows1 ++ rows2) s =
  match run_rows env c rows1 s with
  | (inl e, s1) => (inl e, s1)
  | (inr _, s1) => run_rows env c rows2 s1
  end.
Proof.
  revert s. induction rows1 as [|r t IH]; intros s; [reflexivity|].
  simpl. destruct (match skip c with Some k => (row_index r <=? k)%Z | None => false end);
    [apply IH|].
  destruct (run_inference env c r s) as [[e|[msg|]] s1]; [reflexivity| |apply IH].
  destruct (negb (json_ok msg)); [reflexivity|].
  destruct (dataUpdate env (row_id r) msg); [reflexivity|apply IH].
Qed.

Lemma dget_NoDup_In (k : string) (v : pyval) (d : dict) :
  NoDup (map fst d) -> In (k, v) d -> dget k d = Some v.
Proof.
  induction d as [|[k1 v1] t IH]; simpl; intros Hnd Hin; [contradiction|].
  inversion Hnd as [|x l Hnot Hnd' E]; subst.
  destruct Hin as [E|Hin].
  - injection E as -> ->. rewrite String.eqb_refl. reflexivity.
  - destruct (String.eqb k k1) eqn:Ek.
    + apply String.eqb_eq in Ek. subst k1. exfalso. apply Hnot.
      apply (in_map fst) in Hin. exact Hin.
    + apply IH; assumption.
Qed.

Lemma state_dicts_fails_at (sd : pyval -> exn + pyval) (md : dict) (k : string) (b : pyval)
    (e : exn) (rest : list string) :
  dget k md = Some b -> sd b = inl e ->
  forall pre acc,
    (forall k' b', In (k', b') pre -> dget k' md = Some b' /\ exists v, sd b' = inr v) ->
    state_dicts sd md (map fst pre ++ k :: rest) acc = inl e.
Proof.
  intros Hk Hb pre. induction pre as [|[k1 b1] t IH]; intros acc Hpre; simpl.
  - rewrite Hk, Hb. reflexivity.
  - destruct (Hpre k1 b1 (or_introl eq_refl)) as [Hg [v Hv]].
    rewrite Hg, Hv. apply IH. intros k' b' Hi. apply Hpre. right. exact Hi.
Qed.

(** [getModelArchitectureStateDict] raises the exception of the first
    block, in the order of [model_dict], whose [state_dict()] raises; the
    checkpoint of [save] is then not built ([torch_checkpoint] raises the
    same exception). *)
Theorem getModelArchitectureStateDict_first_failure (sd : pyval -> exn + pyval)
    (pre post : dict) (k : string) (b : pyval) (e : exn) (hp : option dict) :
  NoDup (map fst (pre ++ (k, b) :: post)%list) ->
  (forall k' b', In (k', b') pre -> exists v, sd b' = inr v) ->
  sd b = inl e ->
  getModelArchitectureStateDict sd (pre ++ (k, b) :: post)%list = inl e /\
  torch_checkpoint sd (pre ++ (k, b) :: post)%list hp = inl e.
Proof.
  intros Hnd Hpre Hb.
  assert (H : getModelArchitectureStateDict sd (pre ++ (k, b) :: post)%list = inl e).
  { unfold getModelArchitectureStateDict. rewrite map_app. simpl.
    apply (state_dicts_fails_at sd _ k b e (map fst post)).
    - apply dget_NoDup_In; [exact Hnd|]. apply in_or_app. right. left. reflexivity.
    - exact Hb.
    - intros k' b' Hi. split.
      + apply dget_NoDup_In; [exact Hnd|]. apply in_or_app. left. exact Hi.
      + exact (Hpre k' b' Hi). }
  split; [exact H|]. unfold torch_checkpoint. rewrite H. reflexivity.
Qed.

Lemma getModelArchitectureStateDict_first_failure_witness :
  NoDup (map fst (model_dict0 ++ [("head", VNum 1)])%list) /\
  (forall k' b', In (k', b') model_dict0 -> exists v, state_dict0 b' = inr v) /\
  state_dict0 (VNum 1) = inl AttributeError /\
  getModelArchitectureStateDict state_dict0 (model_dict0 ++ [("head", VNum 1)])%list = inl AttributeError /\
  torch_checkpoint state_dict0 (model_dict0 ++ [("head", VNum 1)])%list None = inl AttributeError.
Proof.
  assert (H1 : NoDup (map fst (model_dict0 ++ [("head", VNum 1)])%list))
    by (simpl; constructor; [intros [H|[H|[]]]; discriminate|
        constructor; [intros [H|[]]; discriminate|constructor; [intros []|constructor]]]).
  assert (H2 : forall k' b', In (k', b') model_dict0 -> exists v, state_dict0 b' = inr v)
    by (intros k' b' [H|[H|[]]]; injection H as <- <-; eexists; reflexivity).
  assert (H3 : state_dict0 (VNum 1) = inl AttributeError) by reflexivity.
  refine (conj H1 (conj H2 (conj H3 _))).
  exact (getModelArchitectureStateDict_first_failure state_dict0 model_dict0 [] "head" (VNum 1)
           AttributeError None H1 H2 H3).
Defined.
